(** * ova_to_ami.py: a shallow embedding and its checked properties

    The script drives three AWS services through boto3 in one linear
    pipeline: bucket creation, role provisioning, upload, import request and
    a polling loop.  Every function of the script is embedded below as a
    computation over an explicit [World] (what was printed, which requests
    were sent, how long the process slept), run against a scripted
    [Backend] that fixes what the file system and the services answer. *)

From Stdlib Require Import ZArith Ascii String List Lia.
From stdpp Require Import base option strings pretty gmap.
Import ListNotations.

Local Open Scope string_scope.
Local Open Scope Z_scope.

(** ** Python values used by the script *)

Module Py.

(** Exceptions the script can see.  All of them derive from Python's
    [Exception]; [SystemExit] is not one of them and is an [outcome]. *)
Inductive exn : Type :=
  | BucketAlreadyOwnedByYou (msg : string)
  | NoSuchEntityException (msg : string)
  | ClientError (msg : string)
  | KeyError (key : string)
  | IndexError (msg : string).

Definition squote : string := "'".

(** [str(e)], as the f-strings of the handlers print it. *)
Definition str (e : exn) : string :=
  match e with
  | BucketAlreadyOwnedByYou msg => msg
  | NoSuchEntityException msg => msg
  | ClientError msg => msg
  | KeyError key => squote +:+ key +:+ squote
  | IndexError msg => msg
  end.

(** [x in l] on strings. *)
Definition str_in (x : string) (l : list string) : bool :=
  existsb (String.eqb x) l.

(** A dict with string keys and string values (a task record, an API
    response). *)
Abbreviation dict := (gmap string string).

(** [d.get(key, default)] *)
Definition get (d : dict) (key default : string) : string :=
  match d !! key with
  | Some v => v
  | None => default
  end.

(** [os.path.basename]: what follows the last slash. *)
Fixpoint basename_from (acc : string) (p : string) : string :=
  match p with
  | EmptyString => acc
  | String c rest =>
      if Ascii.eqb c "/"%char then basename_from rest rest
      else basename_from acc rest
  end.

Definition basename (p : string) : string := basename_from p p.

(** [s[:n]] *)
Definition prefix (n : nat) (s : string) : string := String.substring 0 n s.

End Py.

(** ** JSON documents and [json.dumps] *)

Module Json.

#[local] Set Warnings "-register-all".

Inductive json : Type :=
  | JString (s : string)
  | JArray (items : list json)
  | JObject (fields : list (string * json)).

Definition dquote : ascii := "034"%char.
Definition backslash : ascii := "\"%char.

Definition hex_digit (n : nat) : ascii :=
  match String.get n "0123456789abcdef" with
  | Some c => c
  | None => "0"%char
  end.

(** [json.dumps] keeps the characters from space to tilde, except the
    quote and the backslash, and escapes every other one
    ([ensure_ascii=True]): the short escapes where there is one, the
    four-digit form otherwise.  A character of a [string] stands for the
    code point of the same number, below 256. *)
Definition escape_char (c : ascii) : string :=
  let n := nat_of_ascii c in
  if Ascii.eqb c dquote then String backslash (String dquote EmptyString)
  else if Ascii.eqb c backslash then String backslash (String backslash EmptyString)
  else if (n =? 10)%nat then "\n"
  else if (n =? 13)%nat then "\r"
  else if (n =? 9)%nat then "\t"
  else if (n =? 8)%nat then "\b"
  else if (n =? 12)%nat then "\f"
  else if ((32 <=? n) && (n <=? 126))%nat then String c EmptyString
  else "\u00" +:+ String (hex_digit (n / 16)) (String (hex_digit (n mod 16)) EmptyString).

Fixpoint escape (s : string) : string :=
  match s with
  | EmptyString => EmptyString
  | String c rest => escape_char c +:+ escape rest
  end.

Definition quoted (s : string) : string :=
  String dquote (escape s +:+ String dquote EmptyString).

(** The default separators of [json.dumps]: [", "] between items and
    [": "] after a key. *)
Fixpoint dumps (v : json) : string :=
  match v with
  | JString s => quoted s
  | JArray items =>
      "[" +:+
      (fix dump_items (l : list json) : string :=
         match l with
         | [] => ""
         | [x] => dumps x
         | x :: rest => dumps x +:+ ", " +:+ dump_items rest
         end) items
      +:+ "]"
  | JObject fields =>
      "{" +:+
      (fix dump_fields (l : list (string * json)) : string :=
         match l with
         | [] => ""
         | [(k, x)] => quoted k +:+ ": " +:+ dumps x
         | (k, x) :: rest => quoted k +:+ ": " +:+ dumps x +:+ ", " +:+ dump_fields rest
         end) fields
      +:+ "}"
  end.

(** Reading a document back: the value under a key of an object, the
    strings of a string-or-list-of-strings value (IAM accepts both for
    [Action] and [Resource]). *)
Fixpoint field (key : string) (fields : list (string * json)) : option json :=
  match fields with
  | [] => None
  | (k, v) :: rest => if String.eqb k key then Some v else field key rest
  end.

Definition member (key : string) (v : json) : option json :=
  match v with
  | JObject fields => field key fields
  | _ => None
  end.

Definition strings_of (v : option json) : list string :=
  match v with
  | Some (JString s) => [s]
  | Some (JArray items) =>
      flat_map (fun x => match x with JString s => [s] | _ => [] end) items
  | _ => []
  end.

Definition statements (doc : json) : list json :=
  match member "Statement" doc with
  | Some (JArray items) => items
  | _ => []
  end.

Definition actions (stmt : json) : list string := strings_of (member "Action" stmt).
Definition resources (stmt : json) : list string := strings_of (member "Resource" stmt).

End Json.

(** ** The world the script runs in *)

Inductive stream : Type := Stdout | Stderr.

Record user_bucket : Type := { S3Bucket : string; S3Key : string }.

Record disk_container : Type :=
  { Description : string; Format : string; UserBucket : user_bucket }.

(** The requests the script sends, with their keyword arguments. *)
Inductive api_call : Type :=
  | CreateBucket (Bucket : string) (LocationConstraint : option string)
  | GetRole (RoleName : string)
  | CreateRole (RoleName AssumeRolePolicyDocument : string)
  | PutRolePolicy (RoleName PolicyName PolicyDocument : string)
  | WaitRoleExists (RoleName : string)
  | UploadFile (Filename Bucket Key : string)
  | ImportImage (Description : string) (DiskContainers : list disk_container)
  | DescribeImportImageTasks (ImportTaskIds : list string).

Inductive event : Type :=
  | Print (to : stream) (text : string)
  | Call (request : api_call)
  | Sleep (seconds : Z).

(** What has happened so far, oldest event first, and how many requests
    were sent. *)
Record World : Type := { trace : list event; calls_made : nat }.

Definition initial : World := {| trace := []; calls_made := 0 |}.

Definition record (e : event) (w : World) : World :=
  {| trace := trace w ++ [e];
     calls_made := match e with Call _ => S (calls_made w) | _ => calls_made w end |}.

(** A service either answers or raises. *)
Inductive reply (A : Type) : Type :=
  | Ok (a : A)
  | Err (e : Py.exn).
Arguments Ok {A} a.
Arguments Err {A} e.

(** What [get_role] returns about an existing role; the script never
    looks at it. *)
Record role_info : Type := { Arn : string; TrustPolicy : string }.

(** The response of [describe_import_image_tasks]: the value under
    ['ImportImageTasks'], when the key is there. *)
Record describe_response : Type :=
  { ImportImageTasks : option (list Py.dict) }.

(** Everything outside the script.  A service's answer may depend on the
    request and on how many requests came before it, so that the same
    request can be answered differently the second time. *)
Record Backend : Type :=
  { os_path_exists : string -> bool;
    boto3_client : string -> option Py.exn;
    time_time : Z;
    uuid4 : string;
    region_name : string;
    create_bucket : nat -> string -> option string -> reply unit;
    get_role : nat -> string -> reply role_info;
    create_role : nat -> string -> string -> reply unit;
    put_role_policy : nat -> string -> string -> string -> reply unit;
    wait_role_exists : nat -> string -> reply unit;
    upload_file : nat -> string -> string -> string -> reply unit;
    import_image_reply : nat -> string -> list disk_container -> reply Py.dict;
    describe_import_image_tasks : nat -> list string -> reply describe_response }.

(** ** Computations: state, exceptions, [sys.exit], and running out of fuel *)

Inductive outcome (A : Type) : Type :=
  | Returned (a : A)
  | Raised (e : Py.exn)
  | Exited (code : Z)
  | OutOfFuel.
Arguments Returned {A} a.
Arguments Raised {A} e.
Arguments Exited {A} code.
Arguments OutOfFuel {A}.

Definition M (A : Type) : Type := World -> outcome A * World.

Definition ret {A} (a : A) : M A := fun w => (Returned a, w).

Definition bind {A B} (m : M A) (k : A -> M B) : M B :=
  fun w =>
    match m w with
    | (Returned a, w') => k a w'
    | (Raised e, w') => (Raised e, w')
    | (Exited code, w') => (Exited code, w')
    | (OutOfFuel, w') => (OutOfFuel, w')
    end.

Declare Scope py_scope.
Delimit Scope py_scope with py.
Notation "x <- m ; k" := (bind m (fun x => k))
  (at level 100, m at next level, right associativity) : py_scope.
Notation "m ;; k" := (bind m (fun _ => k))
  (at level 100, right associativity) : py_scope.

Definition raise {A} (e : Py.exn) : M A := fun w => (Raised e, w).

(** [sys.exit(code)] raises [SystemExit], which no [except Exception]
    clause catches. *)
Definition sys_exit {A} (code : Z) : M A := fun w => (Exited code, w).

Definition out_of_fuel {A} : M A := fun w => (OutOfFuel, w).

(** [try: body  except ...: handler]; the handler decides by the class of
    the exception and re-raises what no clause matches. *)
Definition try_except {A} (body : M A) (handler : Py.exn -> M A) : M A :=
  fun w =>
    match body w with
    | (Raised e, w') => handler e w'
    | r => r
    end.

Definition emit (e : event) : M unit := fun w => (Returned tt, record e w).

(** [print(text)] and [print(text, file=sys.stderr)] *)
Definition print (text : string) : M unit := emit (Print Stdout text).
Definition eprint (text : string) : M unit := emit (Print Stderr text).

(** [time.sleep(seconds)] *)
Definition sleep (seconds : Z) : M unit := emit (Sleep seconds).

(** Sending a request: it is recorded, then the service answers. *)
Definition invoke {A} (request : api_call) (answer : nat -> reply A) : M A :=
  fun w =>
    match answer (calls_made w) with
    | Ok a => (Returned a, record (Call request) w)
    | Err e => (Raised e, record (Call request) w)
    end.

(** [d[key]] *)
Definition getitem (d : Py.dict) (key : string) : M string :=
  match d !! key with
  | Some v => ret v
  | None => raise (Py.KeyError key)
  end.

(** [l[0]] *)
Definition first {A} (l : list A) : M A :=
  match l with
  | x :: _ => ret x
  | [] => raise (Py.IndexError "list index out of range")
  end.

(** [response[key]] for the one key the script reads *)
Definition tasks_of (response : describe_response) : M (list Py.dict) :=
  match ImportImageTasks response with
  | Some l => ret l
  | None => raise (Py.KeyError "ImportImageTasks")
  end.

(** The exit status the shell sees: 0 when [main] returns, the argument
    of [sys.exit], 1 when an exception reaches the interpreter. *)
Definition exit_status {A} (o : outcome A) : option Z :=
  match o with
  | Returned _ => Some 0
  | Raised _ => Some 1
  | Exited code => Some code
  | OutOfFuel => None
  end.

Definition calls_of (t : list event) : list api_call :=
  flat_map (fun e => match e with Call c => [c] | _ => [] end) t.

Definition printed (to : stream) (t : list event) : list string :=
  flat_map (fun e =>
    match e with
    | Print Stdout s => match to with Stdout => [s] | Stderr => [] end
    | Print Stderr s => match to with Stderr => [s] | Stdout => [] end
    | _ => []
    end) t.

Definition sleeps_of (t : list event) : list Z :=
  flat_map (fun e => match e with Sleep s => [s] | _ => [] end) t.

(** ** The script *)

Import Json.
Local Open Scope py_scope.

Definition newline : string := String "010"%char EmptyString.

(** Configuration *)
Definition IAM_ROLE_NAME : string := "vmimport".
Definition IAM_POLICY_NAME : string := "vmimport".

Definition trust_policy : json :=
  JObject
    [ ("Version", JString "2012-10-17");
      ("Statement", JArray
        [ JObject
            [ ("Effect", JString "Allow");
              ("Principal", JObject [ ("Service", JString "vmie.amazonaws.com") ]);
              ("Action", JString "sts:AssumeRole");
              ("Condition", JObject
                [ ("StringEquals", JObject [ ("sts:ExternalId", JString "vmimport") ]) ]) ] ]) ].

Definition role_policy (s3_bucket : string) : json :=
  JObject
    [ ("Version", JString "2012-10-17");
      ("Statement", JArray
        [ JObject
            [ ("Effect", JString "Allow");
              ("Action", JArray
                [ JString "s3:GetBucketLocation";
                  JString "s3:GetObject";
                  JString "s3:ListBucket" ]);
              ("Resource", JArray
                [ JString ("arn:aws:s3:::" +:+ s3_bucket);
                  JString ("arn:aws:s3:::" +:+ s3_bucket +:+ "/*") ]) ];
          JObject
            [ ("Effect", JString "Allow");
              ("Action", JArray
                [ JString "ec2:ModifySnapshotAttribute";
                  JString "ec2:CopySnapshot";
                  JString "ec2:RegisterImage";
                  JString "ec2:Describe*" ]);
              ("Resource", JString "*") ] ]) ].

Section Script.

Variable B : Backend.

(** The client methods: each sends its request to the backend. *)
Definition s3_create_bucket (Bucket : string) (LocationConstraint : option string) : M unit :=
  invoke (CreateBucket Bucket LocationConstraint)
         (fun n => create_bucket B n Bucket LocationConstraint).

Definition iam_get_role (RoleName : string) : M role_info :=
  invoke (GetRole RoleName) (fun n => get_role B n RoleName).

Definition iam_create_role (RoleName AssumeRolePolicyDocument : string) : M unit :=
  invoke (CreateRole RoleName AssumeRolePolicyDocument)
         (fun n => create_role B n RoleName AssumeRolePolicyDocument).

Definition iam_put_role_policy (RoleName PolicyName PolicyDocument : string) : M unit :=
  invoke (PutRolePolicy RoleName PolicyName PolicyDocument)
         (fun n => put_role_policy B n RoleName PolicyName PolicyDocument).

Definition iam_wait_role_exists (RoleName : string) : M unit :=
  invoke (WaitRoleExists RoleName) (fun n => wait_role_exists B n RoleName).

Definition s3_upload_file (Filename Bucket Key : string) : M unit :=
  invoke (UploadFile Filename Bucket Key) (fun n => upload_file B n Filename Bucket Key).

Definition ec2_import_image (Description : string) (DiskContainers : list disk_container)
  : M Py.dict :=
  invoke (ImportImage Description DiskContainers)
         (fun n => import_image_reply B n Description DiskContainers).

Definition ec2_describe_import_image_tasks (ImportTaskIds : list string)
  : M describe_response :=
  invoke (DescribeImportImageTasks ImportTaskIds)
         (fun n => describe_import_image_tasks B n ImportTaskIds).

(** [boto3.client(service)] *)
Definition client (service : string) : M unit :=
  match boto3_client B service with
  | None => ret tt
  | Some e => raise e
  end.

Definition create_s3_bucket (bucket_name : string) : M unit :=
  print ("Attempting to create S3 bucket: " +:+ bucket_name) ;;
  try_except
    (let current_region := region_name B in
     (if String.eqb current_region "us-east-1"
      then s3_create_bucket bucket_name None
      else s3_create_bucket bucket_name (Some current_region)) ;;
     print ("Successfully created S3 bucket: " +:+ bucket_name))
    (fun e =>
       match e with
       | Py.BucketAlreadyOwnedByYou _ =>
           print ("Bucket '" +:+ bucket_name
                  +:+ "' already exists and is owned by you. Proceeding...")
       | _ =>
           eprint ("Error creating S3 bucket: " +:+ Py.str e) ;;
           sys_exit 1
       end).

Definition create_iam_role_and_policy (s3_bucket : string) : M unit :=
  print "Checking for existing IAM role..." ;;
  try_except
    (iam_get_role IAM_ROLE_NAME ;;
     print ("IAM role '" +:+ IAM_ROLE_NAME +:+ "' already exists. Skipping creation."))
    (fun e =>
       match e with
       | Py.NoSuchEntityException _ =>
           print ("IAM role '" +:+ IAM_ROLE_NAME +:+ "' not found. Creating...") ;;
           try_except
             (iam_create_role IAM_ROLE_NAME (dumps trust_policy) ;;
              print "IAM role created successfully." ;;
              iam_put_role_policy IAM_ROLE_NAME IAM_POLICY_NAME
                                  (dumps (role_policy s3_bucket)) ;;
              print "IAM role policy attached successfully." ;;
              print "Waiting for IAM role to propagate..." ;;
              iam_wait_role_exists IAM_ROLE_NAME ;;
              print "IAM role is now available.")
             (fun e' =>
                eprint ("Error creating IAM role or policy: " +:+ Py.str e') ;;
                sys_exit 1)
       | _ => raise e
       end).

Definition upload_ova_to_s3 (bucket_name file_path : string) : M string :=
  let file_name := Py.basename file_path in
  print ("Uploading '" +:+ file_name +:+ "' to S3 bucket '" +:+ bucket_name +:+ "'...") ;;
  try_except
    (s3_upload_file file_path bucket_name file_name ;;
     print ("Successfully uploaded '" +:+ file_name +:+ "' to S3.") ;;
     ret file_name)
    (fun e =>
       eprint ("Error uploading file to S3: " +:+ Py.str e) ;;
       sys_exit 1).

Definition import_image (s3_bucket ova_key description : string) : M string :=
  print "Initiating VM import task..." ;;
  let disk_container :=
    {| Description := description;
       Format := "ova";
       UserBucket := {| S3Bucket := s3_bucket; S3Key := ova_key |} |} in
  try_except
    (response <- ec2_import_image description [disk_container] ;
     import_task_id <- getitem response "ImportTaskId" ;
     print ("Import task started. Task ID: " +:+ import_task_id) ;;
     ret import_task_id)
    (fun e =>
       eprint ("Error initiating import task: " +:+ Py.str e) ;;
       sys_exit 1).

(** One pass through the body of [while True]: [Some task] when the body
    returns [task], [None] when it falls through to the next pass. *)
Definition monitor_iteration (task_id : string) : M (option Py.dict) :=
  try_except
    (response <- ec2_describe_import_image_tasks [task_id] ;
     tasks <- tasks_of response ;
     task <- first tasks ;
     status <- getitem task "Status" ;
     let status_message := Py.get task "StatusMessage" "No message" in
     print ("Current status: " +:+ status +:+ " - " +:+ status_message) ;;
     if Py.str_in status ["completed"; "deleted"; "cancelled"]
     then ret (Some task)
     else sleep 30 ;; ret None)
    (fun e =>
       eprint ("Error monitoring import task: " +:+ Py.str e) ;;
       sys_exit 1).

(** [while True]: the loop has no bound of its own, so the embedding takes
    the number of passes it may make. *)
Fixpoint monitor_loop (fuel : nat) (task_id : string) : M Py.dict :=
  match fuel with
  | O => out_of_fuel
  | S fuel' =>
      r <- monitor_iteration task_id ;
      match r with
      | Some task => ret task
      | None => monitor_loop fuel' task_id
      end
  end.

Definition monitor_import_task (fuel : nat) (task_id : string) : M Py.dict :=
  print "Monitoring import task status..." ;;
  monitor_loop fuel task_id.

(** [main], from the parsed command line on: [ova_file_path] is
    [args.input]. *)
Definition main (fuel : nat) (ova_file_path : string) : M unit :=
  print "Starting OVA to AMI conversion script..." ;;
  (if negb (os_path_exists B ova_file_path)
   then eprint ("Error: OVA file not found at '" +:+ ova_file_path +:+ "'") ;;
        sys_exit 1
   else ret tt) ;;
  try_except
    (client "iam" ;; client "ec2" ;; client "s3")
    (fun e =>
       eprint ("Error initializing AWS clients. Ensure Boto3 is installed and your AWS credentials are configured. Details: "
               +:+ Py.str e) ;;
       sys_exit 1) ;;
  let bucket_name :=
    "ova-ami-import-" +:+ pretty (time_time B) +:+ "-" +:+ Py.prefix 8 (uuid4 B) in
  let ami_description := "AMI created from " +:+ Py.basename ova_file_path in
  create_s3_bucket bucket_name ;;
  create_iam_role_and_policy bucket_name ;;
  ova_s3_key <- upload_ova_to_s3 bucket_name ova_file_path ;
  import_task_id <- import_image bucket_name ova_s3_key ami_description ;
  final_task_status <- monitor_import_task fuel import_task_id ;
  status <- getitem final_task_status "Status" ;
  if String.eqb status "completed"
  then
    ami_id <- getitem final_task_status "ImageId" ;
    print (newline +:+ "--- Conversion Complete ---") ;;
    print "The OVA file has been successfully converted to an AMI." ;;
    print ("Final AMI Location (ID): " +:+ ami_id)
  else
    print (newline +:+ "--- Conversion Failed ---") ;;
    print "The import task did not complete successfully." ;;
    status' <- getitem final_task_status "Status" ;
    print ("Final Status: " +:+ status') ;;
    print ("Status Message: " +:+ Py.get final_task_status "StatusMessage" "N/A").

End Script.

(** ** Vocabulary of the statements *)

(** The world after some more events. *)
Definition after (w : World) (evs : list event) : World :=
  {| trace := trace w ++ evs;
     calls_made := (calls_made w + length (calls_of evs))%nat |}.

(** The three statuses that end the polling. *)
Definition is_terminal (status : string) : Prop :=
  status = "completed" \/ status = "deleted" \/ status = "cancelled".

(** The status query numbered [n] answers with a record whose first task
    is [task], of status [status]. *)
Definition observes (B : Backend) (task_id : string) (n : nat)
    (task : Py.dict) (status : string) : Prop :=
  exists rest,
    describe_import_image_tasks B n [task_id]
      = Ok {| ImportImageTasks := Some (task :: rest) |}
    /\ task !! "Status" = Some status.

Definition status_line (task : Py.dict) : string :=
  "Current status: " +:+ Py.get task "Status" "?" +:+ " - "
  +:+ Py.get task "StatusMessage" "No message".

(** What one pass of the loop leaves in the trace: the query and the
    status line, followed by the sleep when the loop goes on. *)
Definition poll (task_id : string) (task : Py.dict) : list event :=
  [ Call (DescribeImportImageTasks [task_id]); Print Stdout (status_line task) ].

Definition pending_pass (task_id : string) (task : Py.dict) : list event :=
  poll task_id task ++ [ Sleep 30 ].

Definition pending_passes (task_id : string) (task : nat -> Py.dict) (n : nat)
  : list event :=
  flat_map (fun k => pending_pass task_id (task k)) (seq 0 n).

Definition monitoring : event := Print Stdout "Monitoring import task status...".

(** The request [create_s3_bucket] is expected to send in a region. *)
Definition location_constraint_for (region : string) : option string :=
  if String.eqb region "us-east-1" then None else Some region.

Definition attempting (bucket_name : string) : event :=
  Print Stdout ("Attempting to create S3 bucket: " +:+ bucket_name).

Definition bucket_request (B : Backend) (bucket_name : string) : api_call :=
  CreateBucket bucket_name (location_constraint_for (region_name B)).

Definition checking : event := Print Stdout "Checking for existing IAM role...".

Definition storage_read_actions : list string :=
  [ "s3:GetBucketLocation"; "s3:GetObject"; "s3:ListBucket" ].

(** [main] read in three parts, for the statements that speak of what
    the monitor returned: the stages before the monitor, which yield the
    task identifier, the monitor, and the report on its result.
    [main_parts] below shows that [main] is their sequence. *)
Definition main_stages (B : Backend) (ova_file_path : string) : M string :=
  print "Starting OVA to AMI conversion script..." ;;
  (if negb (os_path_exists B ova_file_path)
   then eprint ("Error: OVA file not found at '" +:+ ova_file_path +:+ "'") ;;
        sys_exit 1
   else ret tt) ;;
  try_except
    (client B "iam" ;; client B "ec2" ;; client B "s3")
    (fun e =>
       eprint ("Error initializing AWS clients. Ensure Boto3 is installed and your AWS credentials are configured. Details: "
               +:+ Py.str e) ;;
       sys_exit 1) ;;
  let bucket_name :=
    "ova-ami-import-" +:+ pretty (time_time B) +:+ "-" +:+ Py.prefix 8 (uuid4 B) in
  let ami_description := "AMI created from " +:+ Py.basename ova_file_path in
  create_s3_bucket B bucket_name ;;
  create_iam_role_and_policy B bucket_name ;;
  ova_s3_key <- upload_ova_to_s3 B bucket_name ova_file_path ;
  import_image B bucket_name ova_s3_key ami_description.

Definition main_report (final_task_status : Py.dict) : M unit :=
  status <- getitem final_task_status "Status" ;
  if String.eqb status "completed"
  then
    ami_id <- getitem final_task_status "ImageId" ;
    print (newline +:+ "--- Conversion Complete ---") ;;
    print "The OVA file has been successfully converted to an AMI." ;;
    print ("Final AMI Location (ID): " +:+ ami_id)
  else
    print (newline +:+ "--- Conversion Failed ---") ;;
    print "The import task did not complete successfully." ;;
    status' <- getitem final_task_status "Status" ;
    print ("Final Status: " +:+ status') ;;
    print ("Status Message: " +:+ Py.get final_task_status "StatusMessage" "N/A").

(** ** Scenarios

    Concrete backends, on which the statements below are run. *)

Module Scenario.

Definition task_record (fields : list (string * string)) : Py.dict :=
  list_to_map fields.

Definition answer (task : Py.dict) : reply describe_response :=
  Ok {| ImportImageTasks := Some [task] |}.

Definition active : Py.dict := task_record [ ("Status", "active") ].

Definition completed : Py.dict :=
  task_record [ ("Status", "completed"); ("ImageId", "ami-0123456789abcdef0") ].

Definition cancelled : Py.dict :=
  task_record [ ("Status", "cancelled"); ("StatusMessage", "User cancelled") ].

Definition completed_without_image : Py.dict :=
  task_record [ ("Status", "completed") ].

Definition existing_role : reply role_info :=
  Ok {| Arn := "arn:aws:iam::123456789012:role/vmimport"; TrustPolicy := "{}" |}.

Definition no_role : reply role_info :=
  Err (Py.NoSuchEntityException "The role with name vmimport cannot be found.").

Definition access_denied : Py.exn :=
  Py.ClientError "An error occurred (AccessDenied) when calling the GetRole operation".

(** The file [vm.ova] exists; every request is accepted; [bucket],
    [role] and [status] fix what bucket creation, the role lookup and the
    status queries answer. *)
Definition backend (region : string) (bucket : nat -> reply unit)
    (role : reply role_info) (status : nat -> reply describe_response) : Backend :=
  {| os_path_exists := fun p => String.eqb p "vm.ova";
     boto3_client := fun _ => None;
     time_time := 1700000000;
     uuid4 := "123e4567-e89b-12d3-a456-426614174000";
     region_name := region;
     create_bucket := fun n _ _ => bucket n;
     get_role := fun _ _ => role;
     create_role := fun _ _ _ => Ok tt;
     put_role_policy := fun _ _ _ _ => Ok tt;
     wait_role_exists := fun _ _ => Ok tt;
     upload_file := fun _ _ _ _ => Ok tt;
     import_image_reply := fun _ _ _ => Ok (task_record [ ("ImportTaskId", "import-ami-0a1b2c3d") ]);
     describe_import_image_tasks := fun n _ => status n |}.

Definition accepting (status : nat -> reply describe_response) : Backend :=
  backend "us-east-1" (fun _ => Ok tt) existing_role status.

(** Two answers in progress, then [last]. *)
Definition third (last : reply describe_response) (n : nat) : reply describe_response :=
  if (n <? 2)%nat then answer active else last.

Definition tasks_then (last : Py.dict) (k : nat) : Py.dict :=
  if (k <? 2)%nat then active else last.

(** The second creation of a bucket is refused as already owned. *)
Definition owned_after_first (n : nat) : reply unit :=
  match n with
  | O => Ok tt
  | S _ => Err (Py.BucketAlreadyOwnedByYou "Your previous request to create the named bucket succeeded and you already own it.")
  end.

Definition bucket : string := "ova-ami-import-1700000000-123e4567".

End Scenario.

(** ** Vocabulary of the further statements *)

Definition status_query (task_id : string) : api_call :=
  DescribeImportImageTasks [task_id].

Definition monitor_error (e : Py.exn) : event :=
  Print Stderr ("Error monitoring import task: " +:+ Py.str e).

Definition contains_slash (s : string) : bool :=
  existsb (Ascii.eqb "/"%char) (list_ascii_of_string s).

(** The names [main] builds for the run. *)
Definition generated_bucket_name (B : Backend) : string :=
  "ova-ami-import-" +:+ pretty (time_time B) +:+ "-" +:+ Py.prefix 8 (uuid4 B).

Definition generated_description (ova_file_path : string) : string :=
  "AMI created from " +:+ Py.basename ova_file_path.

Definition client_error (e : Py.exn) : event :=
  Print Stderr
    ("Error initializing AWS clients. Ensure Boto3 is installed and your AWS credentials are configured. Details: "
     +:+ Py.str e).

Definition banner : event := Print Stdout "Starting OVA to AMI conversion script...".

Definition uploading (bucket_name file_path : string) : event :=
  Print Stdout ("Uploading '" +:+ Py.basename file_path +:+ "' to S3 bucket '"
                +:+ bucket_name +:+ "'...").

Definition upload_request (bucket_name file_path : string) : api_call :=
  UploadFile file_path bucket_name (Py.basename file_path).

Definition import_request (s3_bucket ova_key description : string) : api_call :=
  ImportImage description
    [ {| Description := description;
         Format := "ova";
         UserBucket := {| S3Bucket := s3_bucket; S3Key := ova_key |} |} ].

Definition initiating : event := Print Stdout "Initiating VM import task...".

Definition role_error (e : Py.exn) : event :=
  Print Stderr ("Error creating IAM role or policy: " +:+ Py.str e).

(** The events of a role creation, up to each of its three requests. *)
Definition creating_role : list event :=
  [ checking; Call (GetRole IAM_ROLE_NAME);
    Print Stdout "IAM role 'vmimport' not found. Creating...";
    Call (CreateRole IAM_ROLE_NAME (dumps trust_policy)) ].

Definition attaching_policy (s3_bucket : string) : list event :=
  creating_role
  ++ [ Print Stdout "IAM role created successfully.";
       Call (PutRolePolicy IAM_ROLE_NAME IAM_POLICY_NAME (dumps (role_policy s3_bucket))) ].

Definition waiting_for_role (s3_bucket : string) : list event :=
  attaching_policy s3_bucket
  ++ [ Print Stdout "IAM role policy attached successfully.";
       Print Stdout "Waiting for IAM role to propagate...";
       Call (WaitRoleExists IAM_ROLE_NAME) ].

(** The exception of the first client construction that fails, in the
    order iam, ec2, s3. *)
Definition first_client_error (B : Backend) : option Py.exn :=
  match boto3_client B "iam" with
  | Some e => Some e
  | None =>
      match boto3_client B "ec2" with
      | Some e => Some e
      | None => boto3_client B "s3"
      end
  end.

(** The stages of [main] that talk to the services, before the monitor. *)
Definition provisioning (B : Backend) (ova_file_path : string) : M string :=
  create_s3_bucket B (generated_bucket_name B) ;;
  create_iam_role_and_policy B (generated_bucket_name B) ;;
  ova_s3_key <- upload_ova_to_s3 B (generated_bucket_name B) ova_file_path ;
  import_image B (generated_bucket_name B) ova_s3_key (generated_description ova_file_path).

(** What a run leaves in the trace when the bucket is created, the role
    is found, and the upload and the import are accepted. *)
Definition provisioned (B : Backend) (ova_file_path import_task_id : string) : list event :=
  [ attempting (generated_bucket_name B);
    Call (bucket_request B (generated_bucket_name B));
    Print Stdout ("Successfully created S3 bucket: " +:+ generated_bucket_name B);
    checking;
    Call (GetRole IAM_ROLE_NAME);
    Print Stdout "IAM role 'vmimport' already exists. Skipping creation.";
    uploading (generated_bucket_name B) ova_file_path;
    Call (upload_request (generated_bucket_name B) ova_file_path);
    Print Stdout ("Successfully uploaded '" +:+ Py.basename ova_file_path +:+ "' to S3.");
    initiating;
    Call (import_request (generated_bucket_name B) (Py.basename ova_file_path)
            (generated_description ova_file_path));
    Print Stdout ("Import task started. Task ID: " +:+ import_task_id) ].

Definition success_report (ami_id : string) : list event :=
  [ Print Stdout (newline +:+ "--- Conversion Complete ---");
    Print Stdout "The OVA file has been successfully converted to an AMI.";
    Print Stdout ("Final AMI Location (ID): " +:+ ami_id) ].

(** The requests of the stages before the monitor, in the order of the
    script, with the names of this run. *)
Definition role_requests (s3_bucket : string) : list api_call :=
  [ GetRole IAM_ROLE_NAME;
    CreateRole IAM_ROLE_NAME (dumps trust_policy);
    PutRolePolicy IAM_ROLE_NAME IAM_POLICY_NAME (dumps (role_policy s3_bucket));
    WaitRoleExists IAM_ROLE_NAME ].

Definition stage_requests (B : Backend) (ova_file_path : string) : list api_call :=
  [ bucket_request B (generated_bucket_name B) ]
  ++ role_requests (generated_bucket_name B)
  ++ [ upload_request (generated_bucket_name B) ova_file_path ]
  ++ [ import_request (generated_bucket_name B) (Py.basename ova_file_path)
         (generated_description ova_file_path) ].

(** From [w], the computation sends some of the requests of [segment],
    in the order of [segment], and nothing else. *)
Definition sends_at {A} (m : M A) (w : World) (segment : list api_call) : Prop :=
  exists evs,
    snd (m w) = after w evs /\ calls_of evs `sublist_of` segment.

(** The exceptions that no handler of the script takes: a failure of the
    role lookup that is not "no such entity", and the missing image
    identifier of a completed task. *)
Definition escapes (B : Backend) (e : Py.exn) : Prop :=
  (exists n, get_role B n IAM_ROLE_NAME = Err e
             /\ forall msg, e <> Py.NoSuchEntityException msg)
  \/ e = Py.KeyError "ImageId".

(** An outcome that stays within what the script is written to do: a
    return, [sys.exit(1)], or one of the two escapes. *)
Definition contained {A} (B : Backend) (o : outcome A) : Prop :=
  match o with
  | Returned _ => True
  | Raised e => escapes B e
  | Exited code => code = 1
  | OutOfFuel => True
  end.

(** The order of the stages, as a rank of their requests. *)
Definition rank (c : api_call) : nat :=
  match c with
  | CreateBucket _ _ => 0
  | GetRole _ => 1
  | CreateRole _ _ => 2
  | PutRolePolicy _ _ _ => 3
  | WaitRoleExists _ => 4
  | UploadFile _ _ _ => 5
  | ImportImage _ _ => 6
  | DescribeImportImageTasks _ => 7
  end%nat.

(** Scenarios with a failing or malformed answer. *)
Module Faults.

Definition throttled : Py.exn := Py.ClientError "Rate exceeded".

(** As [Scenario.backend] in us-east-1 with a bucket that is created,
    but with the answers of the other requests given. *)
Definition backend (clients : string -> option Py.exn) (bucket : reply unit)
    (role : reply role_info) (created attached waited uploaded : reply unit)
    (imported : reply Py.dict) (status : nat -> reply describe_response) : Backend :=
  {| os_path_exists := fun p => String.eqb p "/images/vm.ova";
     boto3_client := clients;
     time_time := 1700000000;
     uuid4 := "123e4567-e89b-12d3-a456-426614174000";
     region_name := "us-east-1";
     create_bucket := fun _ _ _ => bucket;
     get_role := fun _ _ => role;
     create_role := fun _ _ _ => created;
     put_role_policy := fun _ _ _ _ => attached;
     wait_role_exists := fun _ _ => waited;
     upload_file := fun _ _ _ _ => uploaded;
     import_image_reply := fun _ _ _ => imported;
     describe_import_image_tasks := fun n _ => status n |}.

Definition task_id_response : Py.dict :=
  Scenario.task_record [ ("ImportTaskId", "import-ami-0a1b2c3d") ].

Definition all_clients (service : string) : option Py.exn := None.

Definition no_ec2 (service : string) : option Py.exn :=
  if String.eqb service "ec2" then Some (Py.ClientError "You must specify a region.") else None.

Definition accepting (status : nat -> reply describe_response) : Backend :=
  backend all_clients (Ok tt) Scenario.existing_role (Ok tt) (Ok tt) (Ok tt) (Ok tt)
          (Ok task_id_response) status.

(** The status queries are the requests numbered 4 and up of such a run:
    two answers in progress, then [last]. *)
Definition sixth (last : reply describe_response) (n : nat) : reply describe_response :=
  if (n <? 6)%nat then Scenario.answer Scenario.active else last.

End Faults.

(** ** Reading a policy document

    What the service does with the document it receives: it parses the
    JSON text and matches the requested action against the patterns of
    each statement.  A document holds strings, arrays and objects, as
    [Json.json] does. *)

Module Read.

Import Json.

Definition is_space (c : ascii) : bool :=
  let n := nat_of_ascii c in
  ((n =? 32) || (n =? 9) || (n =? 10) || (n =? 13))%nat.

Fixpoint skip_ws (s : string) : string :=
  match s with
  | EmptyString => EmptyString
  | String c rest => if is_space c then skip_ws rest else s
  end.

Definition hex_value (c : ascii) : option nat :=
  let n := nat_of_ascii c in
  if ((48 <=? n) && (n <=? 57))%nat then Some (n - 48)%nat
  else if ((97 <=? n) && (n <=? 102))%nat then Some (n - 87)%nat
  else if ((65 <=? n) && (n <=? 70))%nat then Some (n - 55)%nat
  else None.

(** The character of a four-digit escape; code points from 256 on have
    no character in a [string]. *)
Definition code_point (h3 h2 h1 h0 : ascii) : option ascii :=
  match hex_value h3, hex_value h2, hex_value h1, hex_value h0 with
  | Some a, Some b, Some c, Some d =>
      let n := (((a * 16 + b) * 16 + c) * 16 + d)%nat in
      if (n <? 256)%nat then Some (ascii_of_nat n) else None
  | _, _, _, _ => None
  end.

Definition short_escape (e : ascii) : option ascii :=
  if Ascii.eqb e dquote then Some dquote
  else if Ascii.eqb e backslash then Some backslash
  else if Ascii.eqb e "/"%char then Some "/"%char
  else if Ascii.eqb e "n"%char then Some "010"%char
  else if Ascii.eqb e "r"%char then Some "013"%char
  else if Ascii.eqb e "t"%char then Some "009"%char
  else if Ascii.eqb e "b"%char then Some "008"%char
  else if Ascii.eqb e "f"%char then Some "012"%char
  else None.

(** The characters of a string literal, from behind its opening quote to
    its closing quote, and the text that follows. *)
Fixpoint chars (s : string) : option (string * string) :=
  match s with
  | EmptyString => None
  | String c rest =>
      if Ascii.eqb c dquote then Some (EmptyString, rest)
      else if Ascii.eqb c backslash then
        match rest with
        | EmptyString => None
        | String e rest1 =>
            if Ascii.eqb e "u"%char then
              match rest1 with
              | String h3 (String h2 (String h1 (String h0 rest2))) =>
                  match code_point h3 h2 h1 h0, chars rest2 with
                  | Some ch, Some (t, r) => Some (String ch t, r)
                  | _, _ => None
                  end
              | _ => None
              end
            else
              match short_escape e, chars rest1 with
              | Some ch, Some (t, r) => Some (String ch t, r)
              | _, _ => None
              end
        end
      else
        match chars rest with
        | Some (t, r) => Some (String c t, r)
        | None => None
        end
  end.

(** A value, the items of an array after its bracket, the fields of an
    object after its brace; each yields what it has read and the text
    that follows.  [fuel] bounds the depth of the calls. *)
Fixpoint value (fuel : nat) (s : string) {struct fuel} : option (json * string) :=
  match fuel with
  | O => None
  | S fuel' =>
      match skip_ws s with
      | EmptyString => None
      | String c rest =>
          if Ascii.eqb c dquote then
            match chars rest with
            | Some (t, r) => Some (JString t, r)
            | None => None
            end
          else if Ascii.eqb c "["%char then
            match skip_ws rest with
            | EmptyString => None
            | String c' r' =>
                if Ascii.eqb c' "]"%char then Some (JArray [], r')
                else match items fuel' rest with
                     | Some (l, r) => Some (JArray l, r)
                     | None => None
                     end
            end
          else if Ascii.eqb c "{"%char then
            match skip_ws rest with
            | EmptyString => None
            | String c' r' =>
                if Ascii.eqb c' "}"%char then Some (JObject [], r')
                else match fields fuel' rest with
                     | Some (l, r) => Some (JObject l, r)
                     | None => None
                     end
            end
          else None
      end
  end
with items (fuel : nat) (s : string) {struct fuel} : option (list json * string) :=
  match fuel with
  | O => None
  | S fuel' =>
      match value fuel' s with
      | None => None
      | Some (v, r) =>
          match skip_ws r with
          | EmptyString => None
          | String c r' =>
              if Ascii.eqb c ","%char then
                match items fuel' r' with
                | Some (l, r'') => Some (v :: l, r'')
                | None => None
                end
              else if Ascii.eqb c "]"%char then Some ([v], r')
              else None
          end
      end
  end
with fields (fuel : nat) (s : string) {struct fuel}
  : option (list (string * json) * string) :=
  match fuel with
  | O => None
  | S fuel' =>
      match skip_ws s with
      | EmptyString => None
      | String q r0 =>
          if Ascii.eqb q dquote then
            match chars r0 with
            | None => None
            | Some (k, r1) =>
                match skip_ws r1 with
                | EmptyString => None
                | String colon r2 =>
                    if Ascii.eqb colon ":"%char then
                      match value fuel' r2 with
                      | None => None
                      | Some (v, r3) =>
                          match skip_ws r3 with
                          | EmptyString => None
                          | String c r4 =>
                              if Ascii.eqb c ","%char then
                                match fields fuel' r4 with
                                | Some (l, r5) => Some ((k, v) :: l, r5)
                                | None => None
                                end
                              else if Ascii.eqb c "}"%char then Some ([(k, v)], r4)
                              else None
                          end
                      end
                    else None
                end
            end
          else None
      end
  end.

(** A whole document: one value and nothing but white space after it. *)
Definition loads (s : string) : option json :=
  match value (String.length s) s with
  | Some (v, rest) =>
      match skip_ws rest with
      | EmptyString => Some v
      | String _ _ => None
      end
  | None => None
  end.

(** Action names are matched without regard to case; in a pattern, a
    star stands for any characters and a question mark for one. *)
Definition lower (c : ascii) : ascii :=
  let n := nat_of_ascii c in
  if ((65 <=? n) && (n <=? 90))%nat then ascii_of_nat (n + 32) else c.

Fixpoint glob (pattern : string) : string -> bool :=
  match pattern with
  | EmptyString => fun s => match s with EmptyString => true | String _ _ => false end
  | String p pattern' =>
      if Ascii.eqb p "*"%char then
        fix star (s : string) : bool :=
          glob pattern' s
          || match s with
             | EmptyString => false
             | String _ s' => star s'
             end
      else
        fun s =>
          match s with
          | EmptyString => false
          | String c s' =>
              (Ascii.eqb p "?"%char || Ascii.eqb (lower p) (lower c)) && glob pattern' s'
          end
  end.

(** The statement names the action, by one of its patterns. *)
Definition covers (stmt : json) (action : string) : Prop :=
  exists pattern, In pattern (actions stmt) /\ glob pattern action = true.

Definition effect (stmt : json) : option json := member "Effect" stmt.

End Read.

(** Induction on documents, with the hypothesis on every item and on
    every field. *)
Fixpoint json_induction (P : Json.json -> Prop)
    (HS : forall s, P (Json.JString s))
    (HA : forall l, Forall P l -> P (Json.JArray l))
    (HO : forall l, Forall (fun kv => P (snd kv)) l -> P (Json.JObject l))
    (v : Json.json) {struct v} : P v :=
  match v with
  | Json.JString s => HS s
  | Json.JArray l =>
      HA l ((fix all (l : list Json.json) : Forall P l :=
               match l with
               | [] => @List.Forall_nil _ P
               | x :: rest => @List.Forall_cons _ P x rest (json_induction P HS HA HO x) (all rest)
               end) l)
  | Json.JObject l =>
      HO l ((fix all (l : list (string * Json.json))
               : Forall (fun kv => P (snd kv)) l :=
               match l with
               | [] => @List.Forall_nil _ _
               | (k, x) :: rest =>
                   @List.Forall_cons _ _ (k, x) rest (json_induction P HS HA HO x) (all rest)
               end) l)
  end.

(** The items and the fields of [Json.dumps], on their own. *)
Definition dump_items : list Json.json -> string :=
  fix dump_items (l : list Json.json) : string :=
    match l with
    | [] => ""
    | [x] => Json.dumps x
    | x :: rest => Json.dumps x +:+ ", " +:+ dump_items rest
    end.

Definition dump_fields : list (string * Json.json) -> string :=
  fix dump_fields (l : list (string * Json.json)) : string :=
    match l with
    | [] => ""
    | [(k, x)] => Json.quoted k +:+ ": " +:+ Json.dumps x
    | (k, x) :: rest =>
        Json.quoted k +:+ ": " +:+ Json.dumps x +:+ ", " +:+ dump_fields rest
    end.

(** The property of a value that the round trip is proved by: read with
    fuel enough for its text, the text yields the value and what follows. *)
Definition reads_back (v : json) : Prop :=
  forall rest fuel,
    (String.length (dumps v) <= fuel)%nat ->
    Read.value fuel (dumps v +:+ rest) = Some (v, rest).

(** ** The command line

    [parser.parse_args()] either yields the arguments or ends the process
    itself: with code 0 after printing the help, when the command line
    asks for it, and with code 2 after printing the usage and an error on
    the error stream, when the command line is not accepted (a missing
    --input is such a case, the flag being required). *)
Inductive parse_result : Type :=
  | Parsed (input : string)
  | HelpShown (text : string)
  | UsageError (text : string).

(** [main] from its first line; [parse_args] is the parser that [main]
    builds, applied to the command line. *)
Definition main_from_command_line (B : Backend)
    (parse_args : list string -> parse_result) (fuel : nat) (argv : list string)
  : M unit :=
  match parse_args argv with
  | Parsed input => main B fuel input
  | HelpShown text => print text ;; sys_exit 0
  | UsageError text => eprint text ;; sys_exit 2
  end.

(** A parser for the scenarios: it accepts the flag followed by a path,
    shows the help on -h and --help, and refuses everything else. *)
Definition scenario_parser (argv : list string) : parse_result :=
  match argv with
  | [flag; path] =>
      if String.eqb flag "--input" then Parsed path
      else UsageError "error: unrecognized arguments"
  | [flag] =>
      if String.eqb flag "-h" || String.eqb flag "--help"
      then HelpShown "usage: ova_to_ami.py [-h] --input INPUT"
      else UsageError "error: the following arguments are required: --input"
  | _ => UsageError "error: the following arguments are required: --input"
  end.

(** ** Worlds and traces *)

Local Open Scope list_scope.

Section Worlds.

Lemma after_nil (w : World) : after w [] = w.
Proof.
  destruct w as [t c]. unfold after. simpl.
  rewrite app_nil_r, Nat.add_0_r. reflexivity.
Qed.

Lemma calls_of_app (a b : list event) : calls_of (a ++ b) = calls_of a ++ calls_of b.
Proof. unfold calls_of. apply flat_map_app. Qed.

Lemma after_after (w : World) (a b : list event) :
  after (after w a) b = after w (a ++ b).
Proof.
  unfold after. simpl. f_equal.
  - symmetry. apply app_assoc.
  - rewrite calls_of_app, length_app. lia.
Qed.

Lemma record_after (e : event) (w : World) : record e w = after w [e].
Proof.
  unfold record, after. f_equal.
  destruct e; simpl; lia.
Qed.

Lemma sleeps_of_app (a b : list event) : sleeps_of (a ++ b) = sleeps_of a ++ sleeps_of b.
Proof. unfold sleeps_of. apply flat_map_app. Qed.

End Worlds.

(** Rewrites every world into [after w evs] with one list of events. *)
Ltac worlds := rewrite ?record_after, ?after_after; simpl app.

(** ** Strings *)

Lemma str_in_terminal (status : string) :
  Py.str_in status ["completed"; "deleted"; "cancelled"] = true <-> is_terminal status.
Proof.
  unfold Py.str_in, is_terminal. simpl.
  rewrite !orb_true_iff, !String.eqb_eq. intuition discriminate.
Qed.

Lemma str_in_not_terminal (status : string) :
  ~ is_terminal status ->
  Py.str_in status ["completed"; "deleted"; "cancelled"] = false.
Proof.
  intros H. destruct (Py.str_in status _) eqn:E; [|reflexivity].
  apply str_in_terminal in E. contradiction.
Qed.

(** ** The monitor *)

Section Monitor.

Variable B : Backend.
Variable task_id : string.

Lemma status_line_of (task : Py.dict) (status : string) :
  task !! "Status" = Some status ->
  "Current status: " +:+ status +:+ " - " +:+ Py.get task "StatusMessage" "No message"
  = status_line task.
Proof. intros H. unfold status_line, Py.get. rewrite H. reflexivity. Qed.

Lemma iteration_pending (w : World) (task : Py.dict) (status : string) :
  observes B task_id (calls_made w) task status ->
  ~ is_terminal status ->
  monitor_iteration B task_id w = (Returned None, after w (pending_pass task_id task)).
Proof.
  intros [rest [Hq Hs]] Hnt.
  unfold monitor_iteration, try_except, bind, ec2_describe_import_image_tasks, invoke.
  rewrite Hq. unfold tasks_of, first, getitem, ret. cbn [ImportImageTasks].
  rewrite Hs. unfold print, sleep, emit.
  rewrite (str_in_not_terminal _ Hnt), (status_line_of _ _ Hs).
  worlds. reflexivity.
Qed.

Lemma iteration_terminal (w : World) (task : Py.dict) (status : string) :
  observes B task_id (calls_made w) task status ->
  is_terminal status ->
  monitor_iteration B task_id w = (Returned (Some task), after w (poll task_id task)).
Proof.
  intros [rest [Hq Hs]] Ht.
  unfold monitor_iteration, try_except, bind, ec2_describe_import_image_tasks, invoke.
  rewrite Hq. unfold tasks_of, first, getitem, ret. cbn [ImportImageTasks].
  rewrite Hs. unfold print, emit.
  apply str_in_terminal in Ht. rewrite Ht, (status_line_of _ _ Hs).
  worlds. reflexivity.
Qed.

Lemma iteration_error (w : World) (e : Py.exn) :
  describe_import_image_tasks B (calls_made w) [task_id] = Err e ->
  monitor_iteration B task_id w
  = (Exited 1,
     after w [ Call (DescribeImportImageTasks [task_id]);
               Print Stderr ("Error monitoring import task: " +:+ Py.str e) ]).
Proof.
  intros Hq.
  unfold monitor_iteration, try_except, bind, ec2_describe_import_image_tasks, invoke.
  rewrite Hq. unfold eprint, emit, sys_exit.
  worlds. reflexivity.
Qed.

Lemma pending_passes_S (task : nat -> Py.dict) (n : nat) :
  pending_passes task_id task (S n)
  = pending_passes task_id task n ++ pending_pass task_id (task n).
Proof.
  unfold pending_passes. rewrite seq_S, flat_map_app.
  cbn [flat_map Nat.add]. rewrite app_nil_r. reflexivity.
Qed.

Lemma calls_in_pending_passes (task : nat -> Py.dict) (n : nat) :
  length (calls_of (pending_passes task_id task n)) = n.
Proof.
  induction n as [|n IH]; [reflexivity|].
  rewrite pending_passes_S, calls_of_app, length_app, IH. simpl. lia.
Qed.

Lemma sleeps_in_pending_passes (task : nat -> Py.dict) (n : nat) :
  sleeps_of (pending_passes task_id task n) = repeat 30 n.
Proof.
  induction n as [|n IH]; [reflexivity|].
  rewrite pending_passes_S, sleeps_of_app, IH. simpl.
  rewrite repeat_cons. reflexivity.
Qed.

Lemma calls_made_after_passes (w : World) (task : nat -> Py.dict) (n : nat) :
  calls_made (after w (pending_passes task_id task n)) = (calls_made w + n)%nat.
Proof. simpl. rewrite calls_in_pending_passes. reflexivity. Qed.

Lemma calls_made_monitoring (w : World) (task : nat -> Py.dict) (n : nat) :
  calls_made (after w (monitoring :: pending_passes task_id task n))
  = (calls_made w + n)%nat.
Proof.
  unfold after. cbn [calls_made].
  change (calls_of (monitoring :: pending_passes task_id task n))
    with (calls_of (pending_passes task_id task n)).
  rewrite calls_in_pending_passes. reflexivity.
Qed.

(** While the answers are not terminal the loop keeps going: [n] such
    answers use up [n] passes and leave the loop where it started, [n]
    queries and [n] sleeps later. *)
Lemma loop_skips_pending (task : nat -> Py.dict) (n : nat) :
  forall w : World,
  (forall k, (k < n)%nat ->
     exists status,
       observes B task_id (calls_made w + k) (task k) status /\ ~ is_terminal status) ->
  forall fuel,
    monitor_loop B (n + fuel) task_id w
    = monitor_loop B fuel task_id (after w (pending_passes task_id task n)).
Proof.
  induction n as [|n IH]; intros w H fuel.
  - simpl. unfold pending_passes. simpl. rewrite after_nil. reflexivity.
  - replace (S n + fuel)%nat with (n + S fuel)%nat by lia.
    rewrite IH by (intros k Hk; apply H; lia).
    destruct (H n (Nat.lt_succ_diag_r n)) as [status [Hobs Hnt]].
    rewrite <- (calls_made_after_passes w task n) in Hobs.
    cbn [monitor_loop]. unfold bind at 1.
    rewrite (iteration_pending _ _ _ Hobs Hnt).
    rewrite after_after, <- pending_passes_S. reflexivity.
Qed.

End Monitor.

(** C4: whatever the sequence of answers, as long as the first [n] of them
    carry a status that is not terminal the monitor makes [n] passes, each
    one query, one status line and one sleep of 30, and asks for more (no
    number of passes is enough); and when answer [n] is the first with a
    status among completed, deleted and cancelled, the monitor returns
    that very task record, the last events being that query and its
    status line. *)
Theorem monitor_polls_until_terminal
    (B : Backend) (task_id : string) (w : World) (task : nat -> Py.dict) (n : nat) :
  (forall k, (k < n)%nat ->
     exists status,
       observes B task_id (calls_made w + k) (task k) status /\ ~ is_terminal status) ->
  monitor_import_task B n task_id w
    = (OutOfFuel, after w (monitoring :: pending_passes task_id task n))
  /\ sleeps_of (pending_passes task_id task n) = repeat 30 n
  /\ length (calls_of (pending_passes task_id task n)) = n
  /\ (forall status,
        observes B task_id (calls_made w + n) (task n) status ->
        is_terminal status ->
        forall fuel, (n < fuel)%nat ->
          monitor_import_task B fuel task_id w
          = (Returned (task n),
             after w (monitoring :: pending_passes task_id task n
                                 ++ poll task_id (task n)))).
Proof.
  intros H.
  assert (Hstart : forall fuel,
            monitor_import_task B (n + fuel) task_id w
            = monitor_loop B fuel task_id
                (after w (monitoring :: pending_passes task_id task n))).
  { intros fuel. unfold monitor_import_task, bind, print, emit.
    rewrite record_after.
    rewrite (loop_skips_pending B task_id task n) by (intros k Hk; simpl; rewrite Nat.add_0_r; apply H; exact Hk).
    rewrite after_after. reflexivity. }
  split; [|split; [|split]].
  - rewrite <- (Nat.add_0_r n) at 1. rewrite Hstart. reflexivity.
  - apply sleeps_in_pending_passes.
  - apply calls_in_pending_passes.
  - intros status Hobs Ht fuel Hfuel.
    replace fuel with (n + S (fuel - S n))%nat by lia.
    rewrite Hstart. cbn [monitor_loop]. unfold bind.
    rewrite (iteration_terminal B task_id _ (task n) status);
      [| rewrite calls_made_monitoring; exact Hobs | exact Ht].
    unfold ret. rewrite after_after. reflexivity.
Qed.

(** C5: when a status query raises, after any number of answers that are
    not terminal, the monitor prints one line to the error stream and
    exits with code 1: the failed query is the last request and no sleep
    follows it. *)
Theorem monitor_query_error_is_fatal
    (B : Backend) (task_id : string) (w : World) (task : nat -> Py.dict) (n : nat)
    (e : Py.exn) (fuel : nat) :
  (forall k, (k < n)%nat ->
     exists status,
       observes B task_id (calls_made w + k) (task k) status /\ ~ is_terminal status) ->
  describe_import_image_tasks B (calls_made w + n) [task_id] = Err e ->
  (n < fuel)%nat ->
  monitor_import_task B fuel task_id w
  = (Exited 1,
     after w (monitoring :: pending_passes task_id task n
              ++ [ Call (DescribeImportImageTasks [task_id]);
                   Print Stderr ("Error monitoring import task: " +:+ Py.str e) ])).
Proof.
  intros H Herr Hfuel.
  replace fuel with (n + S (fuel - S n))%nat by lia.
  unfold monitor_import_task, bind at 1, print, emit.
  rewrite record_after.
  rewrite (loop_skips_pending B task_id task n) by (intros k Hk; simpl; rewrite Nat.add_0_r; apply H; exact Hk).
  cbn [monitor_loop]. unfold bind.
  rewrite (iteration_error B task_id _ e);
    [| rewrite after_after; simpl app; rewrite calls_made_monitoring; exact Herr].
  rewrite !after_after. reflexivity.
Qed.

Lemma monitor_polls_until_terminal_witness :
  monitor_import_task (Scenario.accepting (Scenario.third (Scenario.answer Scenario.completed)))
    3 "import-ami-0a1b2c3d" initial
  = (Returned Scenario.completed,
     after initial
       (monitoring
        :: pending_passes "import-ami-0a1b2c3d" (Scenario.tasks_then Scenario.completed) 2
        ++ poll "import-ami-0a1b2c3d" Scenario.completed)).
Proof.
  destruct (monitor_polls_until_terminal
              (Scenario.accepting (Scenario.third (Scenario.answer Scenario.completed)))
              "import-ami-0a1b2c3d" initial (Scenario.tasks_then Scenario.completed) 2)
    as (_ & _ & _ & H).
  - intros k Hk. exists "active".
    destruct k as [|[|k]]; [| |lia];
      (split; [exists []; split; reflexivity | unfold is_terminal; intuition discriminate]).
  - apply (H "completed").
    + exists []. split; reflexivity.
    + left. reflexivity.
    + lia.
Defined.

Lemma monitor_query_error_is_fatal_witness :
  monitor_import_task
    (Scenario.accepting (Scenario.third (Err (Py.ClientError "Rate exceeded"))))
    3 "import-ami-0a1b2c3d" initial
  = (Exited 1,
     after initial
       (monitoring
        :: pending_passes "import-ami-0a1b2c3d" (Scenario.tasks_then Scenario.active) 2
        ++ [ Call (DescribeImportImageTasks ["import-ami-0a1b2c3d"]);
             Print Stderr "Error monitoring import task: Rate exceeded" ])).
Proof.
  apply (monitor_query_error_is_fatal
           (Scenario.accepting (Scenario.third (Err (Py.ClientError "Rate exceeded"))))
           "import-ami-0a1b2c3d" initial (Scenario.tasks_then Scenario.active) 2
           (Py.ClientError "Rate exceeded") 3).
  - intros k Hk. exists "active".
    destruct k as [|[|k]]; [| |lia];
      (split; [exists []; split; reflexivity | unfold is_terminal; intuition discriminate]).
  - reflexivity.
  - lia.
Defined.

(** ** The bucket provisioner *)

Section Bucket.

Variable B : Backend.
Variable bucket_name : string.

(** Every run of [create_s3_bucket], by what the service answers. *)
Lemma create_s3_bucket_run (w : World) :
  create_s3_bucket B bucket_name w
  = match create_bucket B (calls_made w) bucket_name
            (location_constraint_for (region_name B)) with
    | Ok _ =>
        (Returned tt,
         after w [ attempting bucket_name; Call (bucket_request B bucket_name);
                   Print Stdout ("Successfully created S3 bucket: " +:+ bucket_name) ])
    | Err (Py.BucketAlreadyOwnedByYou msg) =>
        (Returned tt,
         after w [ attempting bucket_name; Call (bucket_request B bucket_name);
                   Print Stdout ("Bucket '" +:+ bucket_name
                     +:+ "' already exists and is owned by you. Proceeding...") ])
    | Err e =>
        (Exited 1,
         after w [ attempting bucket_name; Call (bucket_request B bucket_name);
                   Print Stderr ("Error creating S3 bucket: " +:+ Py.str e) ])
    end.
Proof.
  unfold create_s3_bucket, bucket_request, attempting, location_constraint_for.
  unfold try_except, bind, s3_create_bucket, invoke, print, eprint, emit, sys_exit.
  destruct (String.eqb (region_name B) "us-east-1"); cbn [record calls_made];
    match goal with
    | |- context [create_bucket ?b ?n ?s ?l] => destruct (create_bucket b n s l) as [[]|[]]
    end; worlds; reflexivity.
Qed.

End Bucket.

Lemma location_constraint_none (region : string) :
  location_constraint_for region = None <-> region = "us-east-1".
Proof.
  unfold location_constraint_for.
  destruct (String.eqb_spec region "us-east-1"); split; intros; congruence.
Qed.

(** C9: [create_s3_bucket] sends exactly one request, a bucket creation
    for the given name, and that request carries no location constraint
    exactly when the session's region is us-east-1; a constraint it
    carries is the session's region. *)
Theorem bucket_request_location_constraint
    (B : Backend) (bucket_name : string) (w : World) :
  exists lc,
    calls_of (trace (snd (create_s3_bucket B bucket_name w)))
      = calls_of (trace w) ++ [ CreateBucket bucket_name lc ]
    /\ (lc = None <-> region_name B = "us-east-1")
    /\ (region_name B <> "us-east-1" -> lc = Some (region_name B)).
Proof.
  exists (location_constraint_for (region_name B)). split; [|split].
  - rewrite create_s3_bucket_run.
    destruct (create_bucket B _ _ _) as [[]|[]]; cbn [snd after trace];
      rewrite calls_of_app; reflexivity.
  - apply location_constraint_none.
  - intros Hne. unfold location_constraint_for.
    destruct (String.eqb_spec (region_name B) "us-east-1"); congruence.
Qed.

Lemma bucket_request_location_constraint_witness :
  calls_of (trace (snd (create_s3_bucket
     (Scenario.backend "eu-west-1" Scenario.owned_after_first Scenario.existing_role
        (fun _ => Scenario.answer Scenario.completed))
     Scenario.bucket initial)))
  = [ CreateBucket Scenario.bucket (Some "eu-west-1") ]
  /\ calls_of (trace (snd (create_s3_bucket
     (Scenario.accepting (fun _ => Scenario.answer Scenario.completed))
     Scenario.bucket initial)))
  = [ CreateBucket Scenario.bucket None ].
Proof.
  split.
  - destruct (bucket_request_location_constraint
                (Scenario.backend "eu-west-1" Scenario.owned_after_first
                   Scenario.existing_role (fun _ => Scenario.answer Scenario.completed))
                Scenario.bucket initial) as (lc & Hcalls & _ & Hsome).
    rewrite Hcalls, Hsome; [reflexivity | discriminate].
  - destruct (bucket_request_location_constraint
                (Scenario.accepting (fun _ => Scenario.answer Scenario.completed))
                Scenario.bucket initial) as (lc & Hcalls & [_ Hnone] & _).
    rewrite Hcalls, Hnone; reflexivity.
Defined.

(** C6: when the service reports the bucket as already owned by the caller,
    [create_s3_bucket] returns normally, so the caller goes on; a first
    creation that succeeds followed by a second one reported as already
    owned returns normally both times; every other failure of the request
    prints a line to the error stream and exits with code 1. *)
Theorem bucket_creation_is_idempotent
    (B : Backend) (bucket_name : string) (w : World) :
  let lc := location_constraint_for (region_name B) in
  (forall msg,
     create_bucket B (calls_made w) bucket_name lc = Err (Py.BucketAlreadyOwnedByYou msg) ->
     create_s3_bucket B bucket_name w
     = (Returned tt,
        after w [ attempting bucket_name; Call (bucket_request B bucket_name);
                  Print Stdout ("Bucket '" +:+ bucket_name
                    +:+ "' already exists and is owned by you. Proceeding...") ]))
  /\ (forall msg,
        create_bucket B (calls_made w) bucket_name lc = Ok tt ->
        create_bucket B (S (calls_made w)) bucket_name lc
          = Err (Py.BucketAlreadyOwnedByYou msg) ->
        exists w1 w2,
          create_s3_bucket B bucket_name w = (Returned tt, w1)
          /\ create_s3_bucket B bucket_name w1 = (Returned tt, w2)
          /\ calls_of (trace w2)
             = calls_of (trace w) ++ [ CreateBucket bucket_name lc; CreateBucket bucket_name lc ])
  /\ (forall e,
        create_bucket B (calls_made w) bucket_name lc = Err e ->
        (forall msg, e <> Py.BucketAlreadyOwnedByYou msg) ->
        create_s3_bucket B bucket_name w
        = (Exited 1,
           after w [ attempting bucket_name; Call (bucket_request B bucket_name);
                     Print Stderr ("Error creating S3 bucket: " +:+ Py.str e) ])).
Proof.
  intros lc. split; [|split].
  - intros msg H. rewrite create_s3_bucket_run. fold lc. rewrite H. reflexivity.
  - intros msg H1 H2. eexists. eexists. split; [|split].
    + rewrite create_s3_bucket_run. fold lc. rewrite H1. reflexivity.
    + rewrite create_s3_bucket_run. fold lc.
      cbn [after calls_made calls_of flat_map length app attempting].
      replace (calls_made w + 1)%nat with (S (calls_made w)) by lia.
      rewrite H2. reflexivity.
    + cbn [after trace]. rewrite <- app_assoc, calls_of_app. reflexivity.
  - intros e H Hne. rewrite create_s3_bucket_run. fold lc. rewrite H.
    destruct e; try reflexivity. exfalso. exact (Hne msg eq_refl).
Qed.

Lemma bucket_creation_is_idempotent_witness :
  let B := Scenario.backend "eu-west-1" Scenario.owned_after_first Scenario.existing_role
             (fun _ => Scenario.answer Scenario.completed) in
  exists w1 w2,
    create_s3_bucket B Scenario.bucket initial = (Returned tt, w1)
    /\ create_s3_bucket B Scenario.bucket w1 = (Returned tt, w2)
    /\ calls_of (trace w2)
       = [ CreateBucket Scenario.bucket (Some "eu-west-1");
           CreateBucket Scenario.bucket (Some "eu-west-1") ].
Proof.
  intros B.
  destruct (bucket_creation_is_idempotent B Scenario.bucket initial) as (_ & H & _).
  exact (H _ eq_refl eq_refl).
Defined.

(** ** A policy document, written and read back *)

Section Documents.

Lemma append_cons (x : ascii) (a b : string) : String x a +:+ b = String x (a +:+ b).
Proof. reflexivity. Qed.

Lemma append_nil_l (b : string) : "" +:+ b = b.
Proof. reflexivity. Qed.

Lemma append_assoc (a b c : string) : (a +:+ b) +:+ c = a +:+ (b +:+ c).
Proof.
  induction a as [|x a IH]; [reflexivity|].
  rewrite !append_cons, IH. reflexivity.
Qed.

Lemma append_nil_r (a : string) : a +:+ "" = a.
Proof.
  induction a as [|x a IH]; [reflexivity|].
  rewrite append_cons, IH. reflexivity.
Qed.

Lemma length_append (a b : string) :
  String.length (a +:+ b) = (String.length a + String.length b)%nat.
Proof.
  induction a as [|x a IH]; [reflexivity|].
  rewrite append_cons. cbn [String.length]. rewrite IH. reflexivity.
Qed.

(** Reading undoes the escape of one character. *)
Lemma chars_escape_char (c : ascii) (tail : string) :
  Read.chars (escape_char c +:+ tail)
  = match Read.chars tail with
    | Some (t, r) => Some (String c t, r)
    | None => None
    end.
Proof. destruct c as [[] [] [] [] [] [] [] []]; reflexivity. Qed.

Lemma chars_escape (s rest : string) :
  Read.chars (escape s +:+ String dquote rest) = Some (s, rest).
Proof.
  induction s as [|c s IH].
  - reflexivity.
  - cbn [escape]. rewrite append_assoc, chars_escape_char, IH. reflexivity.
Qed.

Lemma quoted_append (s rest : string) :
  quoted s +:+ rest = String dquote (escape s +:+ String dquote rest).
Proof. unfold quoted. rewrite append_cons, append_assoc. reflexivity. Qed.

Lemma value_space (fuel : nat) (s : string) :
  Read.value fuel (String " " s) = Read.value fuel s.
Proof. destruct fuel; reflexivity. Qed.

Lemma items_space (fuel : nat) (s : string) :
  Read.items fuel (String " " s) = Read.items fuel s.
Proof. destruct fuel; [reflexivity|]. cbn [Read.items]. rewrite value_space. reflexivity. Qed.

Lemma fields_space (fuel : nat) (s : string) :
  Read.fields fuel (String " " s) = Read.fields fuel s.
Proof. destruct fuel; reflexivity. Qed.

Lemma dumps_array (l : list json) :
  dumps (JArray l) = String "[" (dump_items l +:+ "]").
Proof. reflexivity. Qed.

Lemma dumps_object (l : list (string * json)) :
  dumps (JObject l) = String "{" (dump_fields l +:+ "}").
Proof. reflexivity. Qed.

(** A serialised value begins with a quote, a bracket or a brace. *)
Lemma dumps_head (v : json) :
  exists h t,
    dumps v = String h t
    /\ Read.is_space h = false
    /\ Ascii.eqb h "]" = false
    /\ Ascii.eqb h "}" = false.
Proof.
  destruct v as [s|l|l].
  - exists dquote, (escape s +:+ String dquote ""). repeat split.
  - exists "["%char, (dump_items l +:+ "]"). repeat split.
  - exists "{"%char, (dump_fields l +:+ "}"). repeat split.
Qed.

Lemma skip_ws_head (h : ascii) (s : string) :
  Read.is_space h = false -> Read.skip_ws (String h s) = String h s.
Proof. intros H. cbn [Read.skip_ws]. rewrite H. reflexivity. Qed.

Lemma items_step (fuel : nat) (x : json) (s tail : string) :
  Read.value fuel s = Some (x, tail) ->
  Read.items (S fuel) s
  = match Read.skip_ws tail with
    | EmptyString => None
    | String c r' =>
        if Ascii.eqb c ","%char then
          match Read.items fuel r' with
          | Some (l, r'') => Some (x :: l, r'')
          | None => None
          end
        else if Ascii.eqb c "]"%char then Some ([x], r')
        else None
    end.
Proof. intros H. cbn [Read.items]. rewrite H. reflexivity. Qed.

Lemma items_read_back (l : list json) :
  Forall reads_back l ->
  l <> [] ->
  forall rest fuel,
    (String.length (dump_items l) < fuel)%nat ->
    Read.items fuel (dump_items l +:+ String "]" rest) = Some (l, rest).
Proof.
  induction 1 as [|x l Hx Hl IH]; intros Hne rest fuel Hfuel; [congruence|].
  destruct fuel as [|fuel]; [lia|].
  destruct l as [|y l].
  - change (dump_items [x]) with (dumps x) in *.
    rewrite (items_step fuel x _ (String "]" rest)) by (apply Hx; lia).
    reflexivity.
  - change (dump_items (x :: y :: l))
      with (dumps x +:+ ", " +:+ dump_items (y :: l)) in *.
    rewrite !length_append in Hfuel. cbn [String.length] in Hfuel.
    rewrite !append_assoc.
    rewrite (items_step fuel x _ (", " +:+ dump_items (y :: l) +:+ String "]" rest))
      by (apply Hx; lia).
    change (Read.skip_ws (", " +:+ dump_items (y :: l) +:+ String "]" rest))
      with (String ","%char (String " "%char (dump_items (y :: l) +:+ String "]" rest))).
    cbv beta iota.
    change (Ascii.eqb ","%char ","%char) with true. cbv iota.
    rewrite items_space, IH by (congruence || lia). reflexivity.
Qed.

Lemma fields_step (fuel : nat) (k : string) (x : json) (r0 r2 tail : string) :
  Read.chars r0 = Some (k, String ":" r2) ->
  Read.value fuel r2 = Some (x, tail) ->
  Read.fields (S fuel) (String dquote r0)
  = match Read.skip_ws tail with
    | EmptyString => None
    | String c r4 =>
        if Ascii.eqb c ","%char then
          match Read.fields fuel r4 with
          | Some (l, r5) => Some ((k, x) :: l, r5)
          | None => None
          end
        else if Ascii.eqb c "}"%char then Some ([(k, x)], r4)
        else None
    end.
Proof.
  intros Hk Hx. cbn [Read.fields].
  rewrite (skip_ws_head dquote) by reflexivity. cbv beta iota.
  change (Ascii.eqb dquote dquote) with true. cbv iota. rewrite Hk.
  rewrite (skip_ws_head ":"%char) by reflexivity. cbv beta iota.
  change (Ascii.eqb ":"%char ":"%char) with true. cbv iota. rewrite Hx.
  reflexivity.
Qed.

Lemma fields_read_back (l : list (string * json)) :
  Forall (fun kv => reads_back (snd kv)) l ->
  l <> [] ->
  forall rest fuel,
    (String.length (dump_fields l) < fuel)%nat ->
    Read.fields fuel (dump_fields l +:+ String "}" rest) = Some (l, rest).
Proof.
  induction 1 as [|[k x] l Hx Hl IH]; intros Hne rest fuel Hfuel; [congruence|].
  cbn [snd] in Hx. destruct fuel as [|fuel]; [lia|].
  destruct l as [|[k' y] l].
  - change (dump_fields [(k, x)]) with (quoted k +:+ ": " +:+ dumps x) in *.
    rewrite !length_append in Hfuel. cbn [String.length] in Hfuel.
    rewrite !append_assoc, quoted_append.
    rewrite (fields_step fuel k x _ (String " " (dumps x +:+ String "}" rest))
               (String "}" rest));
      [reflexivity | apply chars_escape | rewrite value_space; apply Hx; lia].
  - change (dump_fields ((k, x) :: (k', y) :: l))
      with (quoted k +:+ ": " +:+ dumps x +:+ ", " +:+ dump_fields ((k', y) :: l)) in *.
    rewrite !length_append in Hfuel. cbn [String.length] in Hfuel.
    rewrite !append_assoc, quoted_append.
    rewrite (fields_step fuel k x _
               (String " " (dumps x +:+ ", " +:+ dump_fields ((k', y) :: l)
                            +:+ String "}" rest))
               (", " +:+ dump_fields ((k', y) :: l) +:+ String "}" rest));
      [| apply chars_escape | rewrite value_space; apply Hx; lia].
    change (Read.skip_ws (", " +:+ dump_fields ((k', y) :: l) +:+ String "}" rest))
      with (String ","%char
              (String " "%char (dump_fields ((k', y) :: l) +:+ String "}" rest))).
    cbv beta iota.
    change (Ascii.eqb ","%char ","%char) with true. cbv iota.
    rewrite fields_space, IH by (congruence || lia). reflexivity.
Qed.

Lemma dump_items_head (x : json) (l : list json) :
  exists h t,
    dump_items (x :: l) = String h t
    /\ Read.is_space h = false /\ Ascii.eqb h "]" = false.
Proof.
  destruct (dumps_head x) as (h & t & Hd & Hs & Hb & _).
  destruct l as [|y l].
  - exists h, t. auto.
  - exists h, (t +:+ ", " +:+ dump_items (y :: l)).
    change (dump_items (x :: y :: l)) with (dumps x +:+ ", " +:+ dump_items (y :: l)).
    rewrite Hd. auto.
Qed.

Lemma dump_fields_head (k : string) (x : json) (l : list (string * json)) :
  exists t, dump_fields ((k, x) :: l) = String dquote t.
Proof.
  destruct l as [|[k' y] l].
  - change (dump_fields [(k, x)]) with (quoted k +:+ ": " +:+ dumps x).
    rewrite quoted_append. eauto.
  - change (dump_fields ((k, x) :: (k', y) :: l))
      with (quoted k +:+ ": " +:+ dumps x +:+ ", " +:+ dump_fields ((k', y) :: l)).
    rewrite quoted_append. eauto.
Qed.

(** Every value reads back from its text. *)
Lemma value_reads_back (v : json) : reads_back v.
Proof.
  induction v as [s|l Hl|l Hl] using json_induction; intros rest fuel Hfuel.
  - destruct fuel as [|fuel]; [cbn in Hfuel; lia|].
    cbn [dumps]. rewrite quoted_append. cbn [Read.value].
    rewrite (skip_ws_head dquote) by reflexivity. cbv beta iota.
    change (Ascii.eqb dquote dquote) with true. cbv iota.
    rewrite chars_escape. reflexivity.
  - rewrite dumps_array in *. cbn [String.length] in Hfuel.
    rewrite length_append in Hfuel. cbn [String.length] in Hfuel.
    destruct fuel as [|fuel]; [lia|].
    rewrite append_cons, append_assoc. cbn [Read.value].
    rewrite (skip_ws_head "["%char) by reflexivity. cbv beta iota.
    change (Ascii.eqb "["%char dquote) with false.
    change (Ascii.eqb "["%char "["%char) with true. cbv iota.
    destruct l as [|x l]; [reflexivity|].
    destruct (dump_items_head x l) as (h & t & Hd & Hs & Hb).
    rewrite Hd, append_cons, (skip_ws_head h) by exact Hs. cbv beta iota.
    rewrite Hb, <- append_cons, <- Hd.
    change ("]" +:+ rest) with (String "]"%char rest).
    rewrite (items_read_back (x :: l) Hl) by (congruence || lia). reflexivity.
  - rewrite dumps_object in *. cbn [String.length] in Hfuel.
    rewrite length_append in Hfuel. cbn [String.length] in Hfuel.
    destruct fuel as [|fuel]; [lia|].
    rewrite append_cons, append_assoc. cbn [Read.value].
    rewrite (skip_ws_head "{"%char) by reflexivity. cbv beta iota.
    change (Ascii.eqb "{"%char dquote) with false.
    change (Ascii.eqb "{"%char "["%char) with false.
    change (Ascii.eqb "{"%char "{"%char) with true. cbv iota.
    destruct l as [|[k x] l]; [reflexivity|].
    destruct (dump_fields_head k x l) as (t & Hd).
    rewrite Hd, append_cons, (skip_ws_head dquote) by reflexivity. cbv beta iota.
    change (Ascii.eqb dquote "}"%char) with false. cbv iota.
    rewrite <- append_cons, <- Hd.
    change ("}" +:+ rest) with (String "}"%char rest).
    rewrite (fields_read_back ((k, x) :: l) Hl) by (congruence || lia). reflexivity.
Qed.

(** The document that [json.dumps] writes is read back as the value it
    was written from. *)
Lemma loads_dumps (v : json) : Read.loads (dumps v) = Some v.
Proof.
  unfold Read.loads.
  rewrite <- (append_nil_r (dumps v)) at 2.
  rewrite (value_reads_back v "" _ (le_n _)). reflexivity.
Qed.

End Documents.

(** ** The access-role provisioner *)

Section Role.

Variable B : Backend.
Variable s3_bucket : string.

Lemma role_exists_run (w : World) (info : role_info) :
  get_role B (calls_made w) IAM_ROLE_NAME = Ok info ->
  create_iam_role_and_policy B s3_bucket w
  = (Returned tt,
     after w [ checking; Call (GetRole IAM_ROLE_NAME);
               Print Stdout "IAM role 'vmimport' already exists. Skipping creation." ]).
Proof.
  intros H.
  unfold create_iam_role_and_policy, try_except, bind, iam_get_role, invoke, print, emit.
  cbn [record calls_made]. rewrite H. worlds. reflexivity.
Qed.

(** A failed lookup that is not "no such entity" finds no handler. *)
Lemma role_lookup_failure_run (w : World) (e : Py.exn) :
  get_role B (calls_made w) IAM_ROLE_NAME = Err e ->
  (forall msg, e <> Py.NoSuchEntityException msg) ->
  create_iam_role_and_policy B s3_bucket w
  = (Raised e, after w [ checking; Call (GetRole IAM_ROLE_NAME) ]).
Proof.
  intros H Hne.
  unfold create_iam_role_and_policy, try_except, bind, iam_get_role, invoke, print, emit.
  cbn [record calls_made]. rewrite H.
  destruct e; try (unfold raise; worlds; reflexivity).
  exfalso. exact (Hne msg eq_refl).
Qed.

(** A role that is not there is created, and the policy document is the
    next request. *)
Lemma role_missing_run (w : World) (msg : string) :
  get_role B (calls_made w) IAM_ROLE_NAME = Err (Py.NoSuchEntityException msg) ->
  create_role B (S (calls_made w)) IAM_ROLE_NAME (dumps trust_policy) = Ok tt ->
  exists o rest,
    create_iam_role_and_policy B s3_bucket w
    = (o, after w ([ checking; Call (GetRole IAM_ROLE_NAME);
                     Print Stdout "IAM role 'vmimport' not found. Creating...";
                     Call (CreateRole IAM_ROLE_NAME (dumps trust_policy));
                     Print Stdout "IAM role created successfully.";
                     Call (PutRolePolicy IAM_ROLE_NAME IAM_POLICY_NAME
                             (dumps (role_policy s3_bucket))) ] ++ rest)).
Proof.
  intros Hget Hcreate.
  unfold create_iam_role_and_policy, try_except, bind, iam_get_role, iam_create_role,
    iam_put_role_policy, iam_wait_role_exists, invoke, print, eprint, emit, sys_exit.
  cbn [record calls_made]. rewrite Hget. cbn [record calls_made]. rewrite Hcreate.
  cbn [record calls_made].
  destruct (put_role_policy B _ _ _ _) as [[]|e1]; cbn [record calls_made].
  - destruct (wait_role_exists B _ _) as [[]|e2]; eexists; eexists; worlds;
      reflexivity.
  - eexists. eexists. worlds. reflexivity.
Qed.

End Role.

(** C7: when the lookup of the role named vmimport answers with a role,
    whatever that role is, [create_iam_role_and_policy] returns after
    that one request: no role is created and no policy is attached. *)
Theorem existing_role_is_left_alone
    (B : Backend) (s3_bucket : string) (w : World) (info : role_info) :
  get_role B (calls_made w) IAM_ROLE_NAME = Ok info ->
  create_iam_role_and_policy B s3_bucket w
    = (Returned tt,
       after w [ checking; Call (GetRole "vmimport");
                 Print Stdout "IAM role 'vmimport' already exists. Skipping creation." ])
  /\ calls_of (trace (snd (create_iam_role_and_policy B s3_bucket w)))
     = calls_of (trace w) ++ [ GetRole "vmimport" ].
Proof.
  intros H. rewrite (role_exists_run B s3_bucket w info H). split; [reflexivity|].
  cbn [snd after trace]. rewrite calls_of_app. reflexivity.
Qed.

Lemma existing_role_is_left_alone_witness :
  calls_of (trace (snd (create_iam_role_and_policy
     (Scenario.accepting (fun _ => Scenario.answer Scenario.completed))
     Scenario.bucket initial)))
  = [ GetRole "vmimport" ].
Proof.
  apply (existing_role_is_left_alone
           (Scenario.accepting (fun _ => Scenario.answer Scenario.completed))
           Scenario.bucket initial
           {| Arn := "arn:aws:iam::123456789012:role/vmimport"; TrustPolicy := "{}" |}).
  reflexivity.
Defined.

Lemma arn_is_not_a_wildcard (rest : string) : "arn:aws:s3:::" +:+ rest <> "*".
Proof. cbn. discriminate. Qed.

(** C8: when the role is missing and its creation succeeds, the next
    request attaches a policy document for the bucket.  Read back as the
    service reads it, the document is a policy whose statements hold an
    effect, actions and resources and nothing else, and in which every
    statement whose action patterns cover GetBucketLocation, GetObject or
    ListBucket of s3 has the effect Allow and exactly the resources
    arn:aws:s3:::b and arn:aws:s3:::b/*, none of them the wildcard; each
    of the three actions is covered by such a statement. *)
Theorem role_policy_names_the_bucket
    (B : Backend) (s3_bucket : string) (w : World) (msg : string) :
  get_role B (calls_made w) IAM_ROLE_NAME = Err (Py.NoSuchEntityException msg) ->
  create_role B (S (calls_made w)) IAM_ROLE_NAME (dumps trust_policy) = Ok tt ->
  exists document policy rest,
    calls_of (trace (snd (create_iam_role_and_policy B s3_bucket w)))
      = calls_of (trace w)
        ++ [ GetRole "vmimport";
             CreateRole "vmimport" (dumps trust_policy);
             PutRolePolicy "vmimport" "vmimport" document ]
        ++ rest
    /\ Read.loads document = Some policy
    /\ (forall stmt,
          In stmt (statements policy) ->
          exists e a r,
            stmt = JObject [ ("Effect", e); ("Action", a); ("Resource", r) ])
    /\ (forall stmt action,
          In stmt (statements policy) ->
          In action storage_read_actions ->
          Read.covers stmt action ->
          Read.effect stmt = Some (JString "Allow")
          /\ resources stmt
             = [ "arn:aws:s3:::" +:+ s3_bucket; "arn:aws:s3:::" +:+ s3_bucket +:+ "/*" ]
          /\ forall r, In r (resources stmt) -> r <> "*")
    /\ (forall action,
          In action storage_read_actions ->
          exists stmt,
            In stmt (statements policy)
            /\ Read.covers stmt action
            /\ Read.effect stmt = Some (JString "Allow")).
Proof.
  intros Hget Hcreate.
  destruct (role_missing_run B s3_bucket w msg Hget Hcreate) as (o & rest & Hrun).
  exists (dumps (role_policy s3_bucket)), (role_policy s3_bucket), (calls_of rest).
  split; [|split; [|split; [|split]]].
  - rewrite Hrun. cbn [snd after trace]. rewrite !calls_of_app. reflexivity.
  - apply loads_dumps.
  - intros stmt [<- | [<- | []]]; eexists; eexists; eexists; reflexivity.
  - intros stmt action Hstmt Hread Hcov.
    destruct Hstmt as [<- | [<- | []]].
    + split; [reflexivity|]. split; [reflexivity|].
      intros r [<- | [<- | []]]; apply arn_is_not_a_wildcard.
    + exfalso. destruct Hcov as (pattern & Hin & Hglob).
      destruct Hin as [<- | [<- | [<- | [<- | []]]]];
        destruct Hread as [<- | [<- | [<- | []]]];
        vm_compute in Hglob; discriminate Hglob.
  - intros action Hread. eexists. split; [left; reflexivity|]. split; [|reflexivity].
    exists action. split; [exact Hread|].
    destruct Hread as [<- | [<- | [<- | []]]]; vm_compute; reflexivity.
Qed.

Lemma role_policy_names_the_bucket_witness :
  exists document policy rest,
    calls_of (trace (snd (create_iam_role_and_policy
       (Scenario.backend "us-east-1" (fun _ => Ok tt) Scenario.no_role
          (fun _ => Scenario.answer Scenario.completed))
       Scenario.bucket initial)))
    = [ GetRole "vmimport";
        CreateRole "vmimport" (dumps trust_policy);
        PutRolePolicy "vmimport" "vmimport" document ]
      ++ rest
    /\ Read.loads document = Some policy
    /\ forall stmt action,
         In stmt (statements policy) ->
         In action storage_read_actions ->
         Read.covers stmt action ->
         resources stmt
         = [ "arn:aws:s3:::ova-ami-import-1700000000-123e4567";
             "arn:aws:s3:::ova-ami-import-1700000000-123e4567/*" ].
Proof.
  destruct (role_policy_names_the_bucket
              (Scenario.backend "us-east-1" (fun _ => Ok tt) Scenario.no_role
                 (fun _ => Scenario.answer Scenario.completed))
              Scenario.bucket initial
              "The role with name vmimport cannot be found.")
    as (document & policy & rest & Hcalls & Hloads & _ & Hcov & _).
  - reflexivity.
  - reflexivity.
  - exists document, policy, rest. split; [exact Hcalls|]. split; [exact Hloads|].
    intros stmt action Hstmt Hread Hc.
    destruct (Hcov stmt action Hstmt Hread Hc) as (_ & Hres & _). exact Hres.
Defined.

(** ** The whole run *)

Section Main.

Variable B : Backend.

Lemma bind_assoc {X Y Z} (m : M X) (f : X -> M Y) (g : Y -> M Z) (w : World) :
  bind (bind m f) g w = bind m (fun x => bind (f x) g) w.
Proof. unfold bind. destruct (m w) as [[] ?]; reflexivity. Qed.

Lemma bind_ext {X Y} (m : M X) (k1 k2 : X -> M Y) (w : World) :
  (forall x w', k1 x w' = k2 x w') -> bind m k1 w = bind m k2 w.
Proof. intros H. unfold bind. destruct (m w) as [[] ?]; auto. Qed.

Lemma main_parts (fuel : nat) (ova_file_path : string) (w : World) :
  main B fuel ova_file_path w
  = (import_task_id <- main_stages B ova_file_path ;
     final_task_status <- monitor_import_task B fuel import_task_id ;
     main_report final_task_status) w.
Proof.
  symmetry. unfold main, main_stages, main_report. cbv zeta.
  repeat (rewrite bind_assoc; apply bind_ext; intros).
  reflexivity.
Qed.

Lemma report_completed (task : Py.dict) (ami_id : string) (w : World) :
  task !! "Status" = Some "completed" ->
  task !! "ImageId" = Some ami_id ->
  main_report task w
  = (Returned tt,
     after w [ Print Stdout (newline +:+ "--- Conversion Complete ---");
               Print Stdout "The OVA file has been successfully converted to an AMI.";
               Print Stdout ("Final AMI Location (ID): " +:+ ami_id) ]).
Proof.
  intros Hs Hi. unfold main_report, bind, getitem. rewrite Hs. unfold ret.
  rewrite String.eqb_refl, Hi. unfold print, emit.
  worlds. reflexivity.
Qed.

Lemma report_without_image (task : Py.dict) (w : World) :
  task !! "Status" = Some "completed" ->
  task !! "ImageId" = None ->
  main_report task w = (Raised (Py.KeyError "ImageId"), w).
Proof.
  intros Hs Hi. unfold main_report, bind, getitem. rewrite Hs. unfold ret.
  rewrite String.eqb_refl, Hi. reflexivity.
Qed.

Lemma report_failed (task : Py.dict) (status : string) (w : World) :
  task !! "Status" = Some status ->
  status <> "completed" ->
  main_report task w
  = (Returned tt,
     after w [ Print Stdout (newline +:+ "--- Conversion Failed ---");
               Print Stdout "The import task did not complete successfully.";
               Print Stdout ("Final Status: " +:+ status);
               Print Stdout ("Status Message: " +:+ Py.get task "StatusMessage" "N/A") ]).
Proof.
  intros Hs Hne. unfold main_report, bind, getitem. rewrite Hs. unfold ret.
  apply String.eqb_neq in Hne. rewrite Hne. unfold print, emit.
  worlds. reflexivity.
Qed.

(** What [main] does once the stages have run and the monitor has
    returned. *)
Lemma main_after_monitor (fuel : nat) (ova_file_path : string) (w w1 w2 : World)
    (import_task_id : string) (task : Py.dict) :
  main_stages B ova_file_path w = (Returned import_task_id, w1) ->
  monitor_import_task B fuel import_task_id w1 = (Returned task, w2) ->
  main B fuel ova_file_path w = main_report task w2.
Proof.
  intros Hs Hm. rewrite main_parts. unfold bind at 1. rewrite Hs.
  unfold bind at 1. rewrite Hm. reflexivity.
Qed.

End Main.

(** Whatever terminal status other than completed the monitor returns,
    [main] prints its report on the output stream and returns. *)
Lemma unsuccessful_import_returns
    (B : Backend) (fuel : nat) (ova_file_path : string) (w w1 w2 : World)
    (import_task_id : string) (task : Py.dict) (status : string) :
  main_stages B ova_file_path w = (Returned import_task_id, w1) ->
  monitor_import_task B fuel import_task_id w1 = (Returned task, w2) ->
  task !! "Status" = Some status ->
  status <> "completed" ->
  exit_status (fst (main B fuel ova_file_path w)) = Some 0.
Proof.
  intros Hs Hm Hstatus Hne.
  rewrite (main_after_monitor B _ _ _ _ _ _ _ Hs Hm).
  rewrite (report_failed _ _ _ Hstatus Hne). reflexivity.
Qed.

(** C3: when the input path does not exist, [main] prints its banner and
    one line on the error stream and exits with code 1; no request has
    been sent to any service. *)
Theorem missing_file_exits_before_any_call
    (B : Backend) (fuel : nat) (ova_file_path : string) (w : World) :
  os_path_exists B ova_file_path = false ->
  main B fuel ova_file_path w
    = (Exited 1,
       after w [ Print Stdout "Starting OVA to AMI conversion script...";
                 Print Stderr ("Error: OVA file not found at '" +:+ ova_file_path +:+ "'") ])
  /\ exit_status (fst (main B fuel ova_file_path w)) = Some 1
  /\ calls_of (trace (snd (main B fuel ova_file_path w))) = calls_of (trace w)
  /\ calls_made (snd (main B fuel ova_file_path w)) = calls_made w.
Proof.
  intros H.
  assert (Hrun : main B fuel ova_file_path w
    = (Exited 1,
       after w [ Print Stdout "Starting OVA to AMI conversion script...";
                 Print Stderr ("Error: OVA file not found at '" +:+ ova_file_path +:+ "'") ])).
  { unfold main, bind, print, eprint, emit, sys_exit. rewrite H. cbn [negb].
    worlds. reflexivity. }
  rewrite Hrun. repeat split.
  - cbn [snd after trace]. rewrite calls_of_app. cbn. apply app_nil_r.
  - cbn. lia.
Qed.

Lemma missing_file_exits_before_any_call_witness :
  main (Scenario.accepting (fun _ => Scenario.answer Scenario.completed))
       1 "missing.ova" initial
  = (Exited 1,
     after initial
       [ Print Stdout "Starting OVA to AMI conversion script...";
         Print Stderr "Error: OVA file not found at 'missing.ova'" ]).
Proof.
  apply (missing_file_exits_before_any_call
           (Scenario.accepting (fun _ => Scenario.answer Scenario.completed))
           1 "missing.ova" initial).
  reflexivity.
Defined.

(** C10: when the stages have run and the monitor returns a record of
    status completed, [main] raises [KeyError] on ImageId if the record
    has no such key: nothing more is printed, no [sys.exit] is reached and
    the exception leaves [main]; with the key present, [main] prints the
    three lines of the success report and returns. *)
Theorem completed_without_image_raises
    (B : Backend) (fuel : nat) (ova_file_path : string) (w w1 w2 : World)
    (import_task_id : string) (task : Py.dict) :
  main_stages B ova_file_path w = (Returned import_task_id, w1) ->
  monitor_import_task B fuel import_task_id w1 = (Returned task, w2) ->
  task !! "Status" = Some "completed" ->
  (task !! "ImageId" = None ->
   main B fuel ova_file_path w = (Raised (Py.KeyError "ImageId"), w2))
  /\ (forall ami_id,
        task !! "ImageId" = Some ami_id ->
        main B fuel ova_file_path w
        = (Returned tt,
           after w2 [ Print Stdout (newline +:+ "--- Conversion Complete ---");
                      Print Stdout "The OVA file has been successfully converted to an AMI.";
                      Print Stdout ("Final AMI Location (ID): " +:+ ami_id) ])).
Proof.
  intros Hs Hm Hstatus. rewrite (main_after_monitor B _ _ _ _ _ _ _ Hs Hm). split.
  - intros Hi. apply report_without_image; assumption.
  - intros ami_id Hi. apply report_completed; assumption.
Qed.

Lemma completed_without_image_raises_witness :
  let B := Scenario.accepting (fun _ => Scenario.answer Scenario.completed_without_image) in
  fst (main B 1 "vm.ova" initial) = Raised (Py.KeyError "ImageId")
  /\ exit_status (fst (main B 1 "vm.ova" initial)) = Some 1
  /\ printed Stderr (trace (snd (main B 1 "vm.ova" initial))) = [].
Proof.
  intros B.
  set (w1 := snd (main_stages B "vm.ova" initial)).
  set (w2 := snd (monitor_import_task B 1 "import-ami-0a1b2c3d" w1)).
  destruct (completed_without_image_raises B 1 "vm.ova" initial w1 w2
              "import-ami-0a1b2c3d" Scenario.completed_without_image) as [H _].
  - vm_compute. reflexivity.
  - vm_compute. reflexivity.
  - reflexivity.
  - rewrite (H eq_refl). split; [reflexivity | split; [reflexivity | vm_compute; reflexivity]].
Defined.

(** The first end-to-end scenario: everything is accepted and the first
    status query reports completed with an image identifier. *)
Example completed_import_exits_zero :
  let B := Scenario.accepting (fun _ => Scenario.answer Scenario.completed) in
  exit_status (fst (main B 1 "vm.ova" initial)) = Some 0
  /\ last (printed Stdout (trace (snd (main B 1 "vm.ova" initial))))
     = Some "Final AMI Location (ID): ami-0123456789abcdef0".
Proof. vm_compute. split; reflexivity. Qed.

(** C1, at the input on which the script departs from it: everything is
    accepted and the first status query reports cancelled with the message
    User cancelled.  The run prints the status and the message, on the
    output stream, and [main] returns: the exit status is 0. *)
Theorem cancelled_import_exits_zero :
  let B := Scenario.accepting (fun _ => Scenario.answer Scenario.cancelled) in
  main B 1 "vm.ova" initial
  = (Returned tt,
     {| trace :=
          [ Print Stdout "Starting OVA to AMI conversion script...";
            Print Stdout "Attempting to create S3 bucket: ova-ami-import-1700000000-123e4567";
            Call (CreateBucket "ova-ami-import-1700000000-123e4567" None);
            Print Stdout "Successfully created S3 bucket: ova-ami-import-1700000000-123e4567";
            Print Stdout "Checking for existing IAM role...";
            Call (GetRole "vmimport");
            Print Stdout "IAM role 'vmimport' already exists. Skipping creation.";
            Print Stdout "Uploading 'vm.ova' to S3 bucket 'ova-ami-import-1700000000-123e4567'...";
            Call (UploadFile "vm.ova" "ova-ami-import-1700000000-123e4567" "vm.ova");
            Print Stdout "Successfully uploaded 'vm.ova' to S3.";
            Print Stdout "Initiating VM import task...";
            Call (ImportImage "AMI created from vm.ova"
                    [ {| Description := "AMI created from vm.ova";
                         Format := "ova";
                         UserBucket :=
                           {| S3Bucket := "ova-ami-import-1700000000-123e4567";
                              S3Key := "vm.ova" |} |} ]);
            Print Stdout "Import task started. Task ID: import-ami-0a1b2c3d";
            Print Stdout "Monitoring import task status...";
            Call (DescribeImportImageTasks ["import-ami-0a1b2c3d"]);
            Print Stdout "Current status: cancelled - User cancelled";
            Print Stdout (newline +:+ "--- Conversion Failed ---");
            Print Stdout "The import task did not complete successfully.";
            Print Stdout "Final Status: cancelled";
            Print Stdout "Status Message: User cancelled" ];
        calls_made := 5 |})
  /\ exit_status (fst (main B 1 "vm.ova" initial)) = Some 0.
Proof. vm_compute. split; reflexivity. Qed.

(** C2, at the input on which the script departs from it: the lookup of
    the role is refused for lack of permission.  The exception is not
    "no such entity", so no handler of [create_iam_role_and_policy] takes
    it: it leaves the function and then [main], and the script has printed
    nothing on the error stream. *)
Theorem role_lookup_failure_escapes :
  let B := Scenario.backend "us-east-1" (fun _ => Ok tt) (Err Scenario.access_denied)
             (fun _ => Scenario.answer Scenario.completed) in
  create_iam_role_and_policy B Scenario.bucket initial
  = (Raised Scenario.access_denied, after initial [ checking; Call (GetRole "vmimport") ])
  /\ fst (main B 1 "vm.ova" initial) = Raised Scenario.access_denied
  /\ printed Stderr (trace (snd (main B 1 "vm.ova" initial))) = [].
Proof. vm_compute. repeat split; reflexivity. Qed.

(** ** The monitor, whatever the answers *)

(** Runs the combinators of a computation as far as the answers known
    so far allow. *)
Ltac run_script :=
  cbv beta iota zeta
      delta [ret raise sys_exit out_of_fuel bind try_except emit print eprint sleep
             invoke getitem first tasks_of ImportImageTasks].

Section MonitorRuns.

Variable B : Backend.
Variable task_id : string.

(** One pass of the loop, by what the query answers. *)
Lemma iteration_run (w : World) :
  monitor_iteration B task_id w
  = match describe_import_image_tasks B (calls_made w) [task_id] with
    | Err e => (Exited 1, after w [ Call (status_query task_id); monitor_error e ])
    | Ok response =>
        match ImportImageTasks response with
        | None =>
            (Exited 1,
             after w [ Call (status_query task_id);
                       monitor_error (Py.KeyError "ImportImageTasks") ])
        | Some [] =>
            (Exited 1,
             after w [ Call (status_query task_id);
                       monitor_error (Py.IndexError "list index out of range") ])
        | Some (task :: _) =>
            match task !! "Status" with
            | None =>
                (Exited 1,
                 after w [ Call (status_query task_id);
                           monitor_error (Py.KeyError "Status") ])
            | Some status =>
                if Py.str_in status ["completed"; "deleted"; "cancelled"]
                then (Returned (Some task), after w (poll task_id task))
                else (Returned None, after w (pending_pass task_id task))
            end
        end
    end.
Proof.
  unfold monitor_iteration, ec2_describe_import_image_tasks.
  destruct (describe_import_image_tasks B (calls_made w) [task_id]) as [[tasks]|e] eqn:Hq.
  - destruct tasks as [[|task rest]|].
    + run_script. rewrite Hq. run_script. worlds. reflexivity.
    + destruct (task !! "Status") as [status|] eqn:Hs.
      * run_script. rewrite Hq. run_script. rewrite Hs.
        rewrite (status_line_of task status Hs).
        destruct (Py.str_in status _); worlds; reflexivity.
      * run_script. rewrite Hq. run_script. rewrite Hs. worlds. reflexivity.
    + run_script. rewrite Hq. run_script. worlds. reflexivity.
  - run_script. rewrite Hq. worlds. reflexivity.
Qed.

(** What every run of the loop satisfies: the trace grows by [sleeps]
    sleeps of 30 and by status queries only, one more than the sleeps
    unless the fuel ran out; a returned task has a terminal status; the
    loop raises nothing and exits with no other code than 1. *)
Lemma loop_invariant (fuel : nat) :
  forall w : World,
  exists o evs sleeps,
    monitor_loop B fuel task_id w = (o, after w evs)
    /\ sleeps_of evs = repeat 30 sleeps
    /\ calls_of evs
       = repeat (status_query task_id)
                (match o with OutOfFuel => sleeps | _ => S sleeps end)
    /\ (sleeps <= fuel)%nat
    /\ match o with
       | Returned task =>
           exists status, task !! "Status" = Some status /\ is_terminal status
       | Raised _ => False
       | Exited code => code = 1
       | OutOfFuel => sleeps = fuel
       end.
Proof.
  induction fuel as [|fuel IH]; intros w.
  - exists OutOfFuel, [], 0%nat. cbn. rewrite after_nil. repeat split; lia.
  - cbn [monitor_loop]. unfold bind. rewrite iteration_run.
    destruct (describe_import_image_tasks B (calls_made w) [task_id]) as [[tasks]|e];
      [cbn [ImportImageTasks]; destruct tasks as [[|task rest]|];
       [| destruct (task !! "Status") as [status|] eqn:Hs;
          [destruct (Py.str_in status _) eqn:Hin|] |] |];
      try (eexists (Exited 1), _, 0%nat; repeat split; lia).
    + exists (Returned task), (poll task_id task), 0%nat.
      repeat split; try lia.
      exists status. split; [exact Hs | apply str_in_terminal; exact Hin].
    + destruct (IH (after w (pending_pass task_id task)))
        as (o & evs & sleeps & Hrun & Hsleeps & Hcalls & Hle & Hout).
      exists o, (pending_pass task_id task ++ evs), (S sleeps).
      rewrite Hrun, after_after. split; [reflexivity|].
      split; [|split; [|split]].
      * rewrite sleeps_of_app, Hsleeps. reflexivity.
      * rewrite calls_of_app, Hcalls. destruct o; reflexivity.
      * lia.
      * destruct o; try exact Hout. lia.
Qed.

End MonitorRuns.

Lemma monitor_run (B : Backend) (task_id : string) (fuel : nat) (w : World) :
  monitor_import_task B fuel task_id w
  = monitor_loop B fuel task_id (after w [monitoring]).
Proof.
  unfold monitor_import_task, bind, print, emit. rewrite record_after. reflexivity.
Qed.

Lemma monitor_returns_terminal_status
    (B : Backend) (task_id : string) (fuel : nat) (w w' : World) (task : Py.dict) :
  monitor_import_task B fuel task_id w = (Returned task, w') ->
  exists status, task !! "Status" = Some status /\ is_terminal status.
Proof.
  rewrite monitor_run. intros H.
  destruct (loop_invariant B task_id fuel (after w [monitoring]))
    as (o & evs & sleeps & Hrun & _ & _ & _ & Hout).
  rewrite Hrun in H. injection H as -> _. exact Hout.
Qed.

(** X1: a task record that the monitor returns has a status, and that
    status is completed, deleted or cancelled. *)
Theorem monitor_returns_terminal_task
    (B : Backend) (task_id : string) (fuel : nat) (w w' : World) (task : Py.dict) :
  monitor_import_task B fuel task_id w = (Returned task, w') ->
  exists status, task !! "Status" = Some status /\ is_terminal status.
Proof. apply monitor_returns_terminal_status. Qed.

Lemma monitor_returns_terminal_task_witness :
  exists status,
    Scenario.cancelled !! "Status" = Some status /\ is_terminal status.
Proof.
  apply (monitor_returns_terminal_task
           (Scenario.accepting (Scenario.third (Scenario.answer Scenario.cancelled)))
           "import-ami-0a1b2c3d" 3 initial
           (snd (monitor_import_task
                   (Scenario.accepting (Scenario.third (Scenario.answer Scenario.cancelled)))
                   3 "import-ami-0a1b2c3d" initial))).
  vm_compute. reflexivity.
Defined.

(** X2: whatever the service answers, well formed or not, no exception
    leaves the monitor, and when the monitor ends the process it does so
    with code 1. *)
Theorem monitor_never_raises
    (B : Backend) (task_id : string) (fuel : nat) (w : World) :
  match fst (monitor_import_task B fuel task_id w) with
  | Raised _ => False
  | Exited code => code = 1
  | Returned _ | OutOfFuel => True
  end.
Proof.
  rewrite monitor_run.
  destruct (loop_invariant B task_id fuel (after w [monitoring]))
    as (o & evs & sleeps & Hrun & _ & _ & _ & Hout).
  rewrite Hrun. cbn [fst]. destruct o; auto.
Qed.

(** X3: a status query that answers without the key ImportImageTasks,
    with an empty list of tasks, or with a first task that has no Status,
    ends the run like a failed query: the lookup error is printed on the
    error stream and the process exits with code 1. *)
Theorem monitor_malformed_response_is_fatal
    (B : Backend) (task_id : string) (fuel : nat) (w : World)
    (response : describe_response) (e : Py.exn) :
  describe_import_image_tasks B (calls_made w) [task_id] = Ok response ->
  (ImportImageTasks response = None /\ e = Py.KeyError "ImportImageTasks")
  \/ (ImportImageTasks response = Some []
      /\ e = Py.IndexError "list index out of range")
  \/ (exists task rest,
        ImportImageTasks response = Some (task :: rest)
        /\ task !! "Status" = None /\ e = Py.KeyError "Status") ->
  monitor_import_task B (S fuel) task_id w
  = (Exited 1,
     after w [ monitoring; Call (status_query task_id);
               Print Stderr ("Error monitoring import task: " +:+ Py.str e) ]).
Proof.
  intros Hq Hbad. rewrite monitor_run. cbn [monitor_loop]. unfold bind.
  rewrite iteration_run.
  replace (calls_made (after w [monitoring])) with (calls_made w)
    by (cbn; lia).
  rewrite Hq.
  destruct Hbad as [[Hr ->] | [[Hr ->] | (task & rest & Hr & Hs & ->)]];
    rewrite Hr; try rewrite Hs; rewrite after_after; reflexivity.
Qed.

Lemma monitor_malformed_response_is_fatal_witness :
  monitor_import_task
    (Scenario.accepting (fun _ => Ok {| ImportImageTasks := Some [] |}))
    1 "import-ami-0a1b2c3d" initial
  = (Exited 1,
     after initial
       [ monitoring; Call (status_query "import-ami-0a1b2c3d");
         Print Stderr "Error monitoring import task: list index out of range" ]).
Proof.
  apply (monitor_malformed_response_is_fatal
           (Scenario.accepting (fun _ => Ok {| ImportImageTasks := Some [] |}))
           "import-ami-0a1b2c3d" 0 initial {| ImportImageTasks := Some [] |}
           (Py.IndexError "list index out of range")).
  - reflexivity.
  - right. left. split; reflexivity.
Defined.

(** X4: in every run of the monitor the only requests are status queries
    for the given task and every sleep lasts 30; a run that ends, by a
    return or an exit, has sent exactly one query more than it has slept;
    a run stopped after [fuel] passes has sent [fuel] queries and slept
    [fuel] times. *)
Theorem monitor_queries_and_sleeps
    (B : Backend) (task_id : string) (fuel : nat) (w : World) :
  exists evs sleeps queries,
    snd (monitor_import_task B fuel task_id w) = after w (monitoring :: evs)
    /\ sleeps_of evs = repeat 30 sleeps
    /\ calls_of evs = repeat (DescribeImportImageTasks [task_id]) queries
    /\ match fst (monitor_import_task B fuel task_id w) with
       | OutOfFuel => sleeps = fuel /\ queries = fuel
       | _ => queries = S sleeps /\ (sleeps <= fuel)%nat
       end.
Proof.
  rewrite monitor_run.
  destruct (loop_invariant B task_id fuel (after w [monitoring]))
    as (o & evs & sleeps & Hrun & Hsleeps & Hcalls & Hle & Hout).
  exists evs, sleeps, (match o with OutOfFuel => sleeps | _ => S sleeps end).
  rewrite Hrun, after_after. cbn [fst snd app].
  split; [reflexivity|]. split; [exact Hsleeps|]. split; [exact Hcalls|].
  destruct o; auto.
Qed.

(** ** The uploader *)

Lemma contains_slash_cons (c : ascii) (s : string) :
  contains_slash (String c s) = Ascii.eqb c "/"%char || contains_slash s.
Proof. unfold contains_slash. cbn. rewrite Ascii.eqb_sym. reflexivity. Qed.

Lemma basename_from_no_slash (p : string) :
  forall acc,
    (contains_slash p = false -> contains_slash acc = false) ->
    contains_slash (Py.basename_from acc p) = false.
Proof.
  induction p as [|c rest IH]; intros acc H.
  - apply H. reflexivity.
  - cbn [Py.basename_from]. rewrite contains_slash_cons in H.
    destruct (Ascii.eqb c "/"%char).
    + apply IH. auto.
    + apply IH. exact H.
Qed.

Lemma basename_from_suffix (p : string) :
  forall acc,
    (Py.basename_from acc p = acc /\ contains_slash p = false)
    \/ exists dir, p = dir +:+ "/" +:+ Py.basename_from acc p.
Proof.
  induction p as [|c rest IH]; intros acc.
  - left. split; reflexivity.
  - cbn [Py.basename_from]. rewrite contains_slash_cons.
    destruct (Ascii.eqb_spec c "/"%char) as [-> | Hc].
    + right. destruct (IH rest) as [[Heq _] | [dir Hdir]].
      * exists "". rewrite Heq. reflexivity.
      * exists (String "/"%char dir).
        change (String "/"%char rest
                = String "/"%char (dir +:+ "/" +:+ Py.basename_from rest rest)).
        f_equal. exact Hdir.
    + destruct (IH acc) as [[Heq Hno] | [dir Hdir]].
      * left. split; assumption.
      * right. exists (String c dir).
        change (String c rest
                = String c (dir +:+ "/" +:+ Py.basename_from acc rest)).
        f_equal. exact Hdir.
Qed.

Section Upload.

Variable B : Backend.
Variables bucket_name file_path : string.

(** Every run of [upload_ova_to_s3], by what the service answers. *)
Lemma upload_run (w : World) :
  upload_ova_to_s3 B bucket_name file_path w
  = match upload_file B (calls_made w) file_path bucket_name (Py.basename file_path) with
    | Ok _ =>
        (Returned (Py.basename file_path),
         after w [ uploading bucket_name file_path;
                   Call (upload_request bucket_name file_path);
                   Print Stdout ("Successfully uploaded '" +:+ Py.basename file_path
                                 +:+ "' to S3.") ])
    | Err e =>
        (Exited 1,
         after w [ uploading bucket_name file_path;
                   Call (upload_request bucket_name file_path);
                   Print Stderr ("Error uploading file to S3: " +:+ Py.str e) ])
    end.
Proof.
  unfold upload_ova_to_s3, s3_upload_file. run_script.
  destruct (upload_file B _ _ _ _) as [[]|e]; worlds; reflexivity.
Qed.

End Upload.

(** X5: the uploader sends one request, for the given file and bucket,
    whose object key is the path with its directories stripped: the key
    holds no slash, and the path is the key itself or ends in a slash
    followed by the key; when the uploader returns, it returns that key. *)
Theorem upload_key_is_base_name
    (B : Backend) (bucket_name file_path : string) (w : World) :
  exists key,
    calls_of (trace (snd (upload_ova_to_s3 B bucket_name file_path w)))
      = calls_of (trace w) ++ [ UploadFile file_path bucket_name key ]
    /\ contains_slash key = false
    /\ (file_path = key \/ exists dir, file_path = dir +:+ "/" +:+ key)
    /\ (forall r, fst (upload_ova_to_s3 B bucket_name file_path w) = Returned r -> r = key).
Proof.
  exists (Py.basename file_path). rewrite upload_run.
  split; [|split; [|split]].
  - destruct (upload_file B _ _ _ _) as [[]|e]; cbn [snd after trace];
      rewrite calls_of_app; reflexivity.
  - apply basename_from_no_slash. auto.
  - unfold Py.basename.
    destruct (basename_from_suffix file_path file_path) as [[Heq _] | Hdir].
    + left. symmetry. exact Heq.
    + right. exact Hdir.
  - destruct (upload_file B _ _ _ _) as [[]|e]; cbn [fst]; intros r H;
      [injection H as <-; reflexivity | discriminate H].
Qed.

(** X6: whatever exception the transfer raises, the uploader prints it on
    the error stream and exits with code 1; the transfer is not tried
    again. *)
Theorem upload_failure_is_fatal
    (B : Backend) (bucket_name file_path : string) (w : World) (e : Py.exn) :
  upload_file B (calls_made w) file_path bucket_name (Py.basename file_path) = Err e ->
  upload_ova_to_s3 B bucket_name file_path w
  = (Exited 1,
     after w [ uploading bucket_name file_path;
               Call (UploadFile file_path bucket_name (Py.basename file_path));
               Print Stderr ("Error uploading file to S3: " +:+ Py.str e) ]).
Proof. intros H. rewrite upload_run, H. reflexivity. Qed.

Lemma upload_failure_is_fatal_witness :
  upload_ova_to_s3
    (Faults.backend Faults.all_clients (Ok tt) Scenario.existing_role (Ok tt) (Ok tt) (Ok tt)
       (Err Faults.throttled) (Ok Faults.task_id_response)
       (fun _ => Scenario.answer Scenario.completed))
    Scenario.bucket "/images/vm.ova" initial
  = (Exited 1,
     after initial
       [ uploading Scenario.bucket "/images/vm.ova";
         Call (UploadFile "/images/vm.ova" Scenario.bucket "vm.ova");
         Print Stderr "Error uploading file to S3: Rate exceeded" ]).
Proof.
  apply (upload_failure_is_fatal
           (Faults.backend Faults.all_clients (Ok tt) Scenario.existing_role (Ok tt) (Ok tt)
              (Ok tt) (Err Faults.throttled) (Ok Faults.task_id_response)
              (fun _ => Scenario.answer Scenario.completed))
           Scenario.bucket "/images/vm.ova" initial Faults.throttled).
  reflexivity.
Defined.

(** ** The import initiator *)

Section Initiator.

Variable B : Backend.
Variables s3_bucket ova_key description : string.

(** Every run of [import_image], by what the service answers. *)
Lemma import_run (w : World) :
  import_image B s3_bucket ova_key description w
  = match import_image_reply B (calls_made w) description
            [ {| Description := description;
                 Format := "ova";
                 UserBucket := {| S3Bucket := s3_bucket; S3Key := ova_key |} |} ] with
    | Ok response =>
        match response !! "ImportTaskId" with
        | Some import_task_id =>
            (Returned import_task_id,
             after w [ initiating;
                       Call (import_request s3_bucket ova_key description);
                       Print Stdout ("Import task started. Task ID: " +:+ import_task_id) ])
        | None =>
            (Exited 1,
             after w [ initiating;
                       Call (import_request s3_bucket ova_key description);
                       Print Stderr ("Error initiating import task: "
                                     +:+ Py.str (Py.KeyError "ImportTaskId")) ])
        end
    | Err e =>
        (Exited 1,
         after w [ initiating;
                   Call (import_request s3_bucket ova_key description);
                   Print Stderr ("Error initiating import task: " +:+ Py.str e) ])
    end.
Proof.
  unfold import_image, ec2_import_image. run_script.
  destruct (import_image_reply B _ _ _) as [response|e].
  - destruct (response !! "ImportTaskId") as [import_task_id|]; worlds; reflexivity.
  - worlds. reflexivity.
Qed.

End Initiator.

(** X7: when the service accepts the import and its response carries a
    task identifier, the initiator returns that identifier; its one
    request describes a single disk in the ova format, located by the
    given bucket and key, and carries the description twice, on the
    request and on the disk. *)
Theorem import_returns_task_id
    (B : Backend) (s3_bucket ova_key description : string) (w : World)
    (response : Py.dict) (import_task_id : string) :
  import_image_reply B (calls_made w) description
    [ {| Description := description; Format := "ova";
         UserBucket := {| S3Bucket := s3_bucket; S3Key := ova_key |} |} ]
  = Ok response ->
  response !! "ImportTaskId" = Some import_task_id ->
  import_image B s3_bucket ova_key description w
  = (Returned import_task_id,
     after w [ initiating;
               Call (ImportImage description
                       [ {| Description := description; Format := "ova";
                            UserBucket := {| S3Bucket := s3_bucket; S3Key := ova_key |} |} ]);
               Print Stdout ("Import task started. Task ID: " +:+ import_task_id) ]).
Proof. intros Hr Hid. rewrite import_run, Hr, Hid. reflexivity. Qed.

Lemma import_returns_task_id_witness :
  fst (import_image (Faults.accepting (fun _ => Scenario.answer Scenario.completed))
         Scenario.bucket "vm.ova" "AMI created from vm.ova" initial)
  = Returned "import-ami-0a1b2c3d".
Proof.
  rewrite (import_returns_task_id
             (Faults.accepting (fun _ => Scenario.answer Scenario.completed))
             Scenario.bucket "vm.ova" "AMI created from vm.ova" initial
             Faults.task_id_response "import-ami-0a1b2c3d");
    reflexivity.
Defined.

(** X8: a response of the import request that has no key ImportTaskId is
    a fatal error like a refused request: the key error, which prints as
    the quoted key, goes to the error stream and the process exits with
    code 1; no identifier is returned. *)
Theorem import_response_without_task_id_is_fatal
    (B : Backend) (s3_bucket ova_key description : string) (w : World)
    (response : Py.dict) :
  import_image_reply B (calls_made w) description
    [ {| Description := description; Format := "ova";
         UserBucket := {| S3Bucket := s3_bucket; S3Key := ova_key |} |} ]
  = Ok response ->
  response !! "ImportTaskId" = None ->
  import_image B s3_bucket ova_key description w
  = (Exited 1,
     after w [ initiating;
               Call (import_request s3_bucket ova_key description);
               Print Stderr "Error initiating import task: 'ImportTaskId'" ]).
Proof. intros Hr Hid. rewrite import_run, Hr, Hid. reflexivity. Qed.

Lemma import_response_without_task_id_is_fatal_witness :
  fst (import_image
         (Faults.backend Faults.all_clients (Ok tt) Scenario.existing_role (Ok tt) (Ok tt)
            (Ok tt) (Ok tt) (Ok (Scenario.task_record [ ("Status", "active") ]))
            (fun _ => Scenario.answer Scenario.completed))
         Scenario.bucket "vm.ova" "AMI created from vm.ova" initial)
  = Exited 1.
Proof.
  rewrite (import_response_without_task_id_is_fatal
             (Faults.backend Faults.all_clients (Ok tt) Scenario.existing_role (Ok tt) (Ok tt)
                (Ok tt) (Ok tt) (Ok (Scenario.task_record [ ("Status", "active") ]))
                (fun _ => Scenario.answer Scenario.completed))
             Scenario.bucket "vm.ova" "AMI created from vm.ova" initial
             (Scenario.task_record [ ("Status", "active") ]));
    reflexivity.
Defined.

(** X9: whatever exception the import request raises, the initiator
    prints it on the error stream and exits with code 1, after that one
    request. *)
Theorem import_failure_is_fatal
    (B : Backend) (s3_bucket ova_key description : string) (w : World) (e : Py.exn) :
  import_image_reply B (calls_made w) description
    [ {| Description := description; Format := "ova";
         UserBucket := {| S3Bucket := s3_bucket; S3Key := ova_key |} |} ]
  = Err e ->
  import_image B s3_bucket ova_key description w
  = (Exited 1,
     after w [ initiating;
               Call (import_request s3_bucket ova_key description);
               Print Stderr ("Error initiating import task: " +:+ Py.str e) ]).
Proof. intros Hr. rewrite import_run, Hr. reflexivity. Qed.

Lemma import_failure_is_fatal_witness :
  fst (import_image
         (Faults.backend Faults.all_clients (Ok tt) Scenario.existing_role (Ok tt) (Ok tt)
            (Ok tt) (Ok tt) (Err Faults.throttled)
            (fun _ => Scenario.answer Scenario.completed))
         Scenario.bucket "vm.ova" "AMI created from vm.ova" initial)
  = Exited 1.
Proof.
  rewrite (import_failure_is_fatal
             (Faults.backend Faults.all_clients (Ok tt) Scenario.existing_role (Ok tt) (Ok tt)
                (Ok tt) (Ok tt) (Err Faults.throttled)
                (fun _ => Scenario.answer Scenario.completed))
             Scenario.bucket "vm.ova" "AMI created from vm.ova" initial Faults.throttled);
    reflexivity.
Defined.

(** ** The role provisioner, when the role is missing *)

(** Every run of the provisioner on a missing role, by what the three
    requests answer. *)
Lemma role_creation_run
    (B : Backend) (s3_bucket : string) (w : World) (msg : string) :
  get_role B (calls_made w) IAM_ROLE_NAME = Err (Py.NoSuchEntityException msg) ->
  create_iam_role_and_policy B s3_bucket w
  = match create_role B (S (calls_made w)) IAM_ROLE_NAME (dumps trust_policy) with
    | Err e => (Exited 1, after w (creating_role ++ [ role_error e ]))
    | Ok _ =>
        match put_role_policy B (S (S (calls_made w))) IAM_ROLE_NAME IAM_POLICY_NAME
                (dumps (role_policy s3_bucket)) with
        | Err e => (Exited 1, after w (attaching_policy s3_bucket ++ [ role_error e ]))
        | Ok _ =>
            match wait_role_exists B (S (S (S (calls_made w)))) IAM_ROLE_NAME with
            | Err e => (Exited 1, after w (waiting_for_role s3_bucket ++ [ role_error e ]))
            | Ok _ =>
                (Returned tt,
                 after w (waiting_for_role s3_bucket
                          ++ [ Print Stdout "IAM role is now available." ]))
            end
        end
    end.
Proof.
  intros Hget.
  unfold create_iam_role_and_policy, iam_get_role, iam_create_role,
    iam_put_role_policy, iam_wait_role_exists.
  run_script. cbn [record calls_made]. rewrite Hget. cbn [record calls_made].
  destruct (create_role B _ _ _) as [[]|e1]; [|worlds; reflexivity].
  cbn [record calls_made].
  destruct (put_role_policy B _ _ _ _) as [[]|e2]; [|worlds; reflexivity].
  cbn [record calls_made].
  destruct (wait_role_exists B _ _) as [[]|e3]; worlds; reflexivity.
Qed.


(** X10: when the role is missing, the provisioner asks for the role to
    be created, then for the policy to be attached, then waits for the
    role, in that order.  The first of the three that raises, whatever it
    raises, ends the run with one line on the error stream and exit code
    1, and the later requests are not sent; the provisioner returns only
    when all three succeed. *)
Theorem role_creation_stops_at_first_failure
    (B : Backend) (s3_bucket : string) (w : World) (msg : string) :
  get_role B (calls_made w) IAM_ROLE_NAME = Err (Py.NoSuchEntityException msg) ->
  create_iam_role_and_policy B s3_bucket w
  = match create_role B (S (calls_made w)) IAM_ROLE_NAME (dumps trust_policy) with
    | Err e => (Exited 1, after w (creating_role ++ [ role_error e ]))
    | Ok _ =>
        match put_role_policy B (S (S (calls_made w))) IAM_ROLE_NAME IAM_POLICY_NAME
                (dumps (role_policy s3_bucket)) with
        | Err e => (Exited 1, after w (attaching_policy s3_bucket ++ [ role_error e ]))
        | Ok _ =>
            match wait_role_exists B (S (S (S (calls_made w)))) IAM_ROLE_NAME with
            | Err e => (Exited 1, after w (waiting_for_role s3_bucket ++ [ role_error e ]))
            | Ok _ =>
                (Returned tt,
                 after w (waiting_for_role s3_bucket
                          ++ [ Print Stdout "IAM role is now available." ]))
            end
        end
    end.
Proof. apply role_creation_run. Qed.

Lemma role_creation_stops_at_first_failure_witness :
  create_iam_role_and_policy
    (Faults.backend Faults.all_clients (Ok tt) Scenario.no_role (Ok tt)
       (Err Faults.throttled) (Ok tt) (Ok tt) (Ok Faults.task_id_response)
       (fun _ => Scenario.answer Scenario.completed))
    Scenario.bucket initial
  = (Exited 1,
     after initial (attaching_policy Scenario.bucket ++ [ role_error Faults.throttled ])).
Proof.
  rewrite (role_creation_stops_at_first_failure
             (Faults.backend Faults.all_clients (Ok tt) Scenario.no_role (Ok tt)
                (Err Faults.throttled) (Ok tt) (Ok tt) (Ok Faults.task_id_response)
                (fun _ => Scenario.answer Scenario.completed))
             Scenario.bucket initial
             "The role with name vmimport cannot be found.");
    reflexivity.
Defined.

(** ** The whole run, whatever the answers *)

Section Stages.

Variable B : Backend.

(** [main_stages], by the precondition and the client constructions. *)
Lemma main_stages_run (ova_file_path : string) (w : World) :
  main_stages B ova_file_path w
  = if os_path_exists B ova_file_path
    then match first_client_error B with
         | Some e => (Exited 1, after w [ banner; client_error e ])
         | None => provisioning B ova_file_path (after w [ banner ])
         end
    else (Exited 1,
          after w [ banner;
                    Print Stderr ("Error: OVA file not found at '" +:+ ova_file_path +:+ "'") ]).
Proof.
  unfold main_stages, first_client_error, client.
  unfold bind at 1. unfold print at 1, emit. rewrite record_after.
  unfold bind at 1. destruct (os_path_exists B ova_file_path); cbn [negb].
  - unfold ret at 1. unfold bind at 1, try_except at 1.
    destruct (boto3_client B "iam") as [e|];
      [run_script; worlds; reflexivity|].
    destruct (boto3_client B "ec2") as [e|];
      [run_script; worlds; reflexivity|].
    destruct (boto3_client B "s3") as [e|];
      [run_script; worlds; reflexivity|].
    unfold bind at 1 2, ret at 1 2 3. reflexivity.
  - run_script. worlds. reflexivity.
Qed.

End Stages.

Section Contained.

Variable B : Backend.

Lemma contained_bind {X Y} (m : M X) (k : X -> M Y) (w : World) :
  contained B (fst (m w)) ->
  (forall x w', m w = (Returned x, w') -> contained B (fst (k x w'))) ->
  contained B (fst (bind m k w)).
Proof.
  intros Hm Hk. unfold bind. destruct (m w) as [[x|e|code|] w']; cbn in *; auto.
Qed.

Lemma bucket_contained (bucket_name : string) (w : World) :
  contained B (fst (create_s3_bucket B bucket_name w)).
Proof.
  rewrite create_s3_bucket_run.
  destruct (create_bucket B _ _ _) as [[]|[]]; cbn; auto.
Qed.

Lemma role_contained (s3_bucket : string) (w : World) :
  contained B (fst (create_iam_role_and_policy B s3_bucket w)).
Proof.
  destruct (get_role B (calls_made w) IAM_ROLE_NAME) as [info|e] eqn:Hget.
  - rewrite (role_exists_run B s3_bucket w info Hget). exact I.
  - assert (Hother : (forall msg, e <> Py.NoSuchEntityException msg) ->
                     contained B (fst (create_iam_role_and_policy B s3_bucket w))).
    { intros Hne. rewrite (role_lookup_failure_run B s3_bucket w e Hget Hne).
      left. exists (calls_made w). split; assumption. }
    destruct e; try (apply Hother; discriminate).
    rewrite (role_creation_run B s3_bucket w msg Hget).
    destruct (create_role B _ _ _) as [[]|e1]; [|reflexivity].
    destruct (put_role_policy B _ _ _ _) as [[]|e2]; [|reflexivity].
    destruct (wait_role_exists B _ _) as [[]|e3]; [exact I|reflexivity].
Qed.

Lemma upload_contained (bucket_name file_path : string) (w : World) :
  contained B (fst (upload_ova_to_s3 B bucket_name file_path w)).
Proof.
  rewrite upload_run. destruct (upload_file B _ _ _ _) as [[]|e]; cbn; auto.
Qed.

Lemma import_contained (s3_bucket ova_key description : string) (w : World) :
  contained B (fst (import_image B s3_bucket ova_key description w)).
Proof.
  rewrite import_run. destruct (import_image_reply B _ _ _) as [response|e]; [|reflexivity].
  destruct (response !! "ImportTaskId"); cbn; auto.
Qed.

Lemma stages_contained (ova_file_path : string) (w : World) :
  contained B (fst (main_stages B ova_file_path w)).
Proof.
  rewrite main_stages_run.
  destruct (os_path_exists B ova_file_path); [|reflexivity].
  destruct (first_client_error B); [reflexivity|].
  unfold provisioning.
  apply contained_bind; [apply bucket_contained | intros _ w1 _].
  apply contained_bind; [apply role_contained | intros _ w2 _].
  apply contained_bind; [apply upload_contained | intros key w3 _].
  apply import_contained.
Qed.

Lemma report_contained (task : Py.dict) (status : string) (w : World) :
  task !! "Status" = Some status ->
  contained B (fst (main_report task w)).
Proof.
  intros Hs. destruct (String.eqb_spec status "completed") as [-> | Hne].
  - destruct (task !! "ImageId") as [ami_id|] eqn:Hi.
    + rewrite (report_completed task ami_id w Hs Hi). exact I.
    + rewrite (report_without_image task w Hs Hi). right. reflexivity.
  - rewrite (report_failed task status w Hs Hne). exact I.
Qed.

Lemma main_contained (fuel : nat) (ova_file_path : string) (w : World) :
  contained B (fst (main B fuel ova_file_path w)).
Proof.
  rewrite main_parts.
  apply contained_bind; [apply stages_contained | intros import_task_id w1 _].
  destruct (loop_invariant B import_task_id fuel (after w1 [monitoring]))
    as (o & evs & sleeps & Hrun & _ & _ & _ & Hout).
  apply contained_bind.
  - rewrite monitor_run, Hrun. destruct o; cbn; auto. contradiction.
  - intros task w2 Hm. rewrite monitor_run, Hrun in Hm. injection Hm as -> _.
    destruct Hout as (status & Hs & _). apply (report_contained task status w2 Hs).
Qed.

End Contained.

Lemma calls_made_after_banner (w : World) : calls_made (after w [ banner ]) = calls_made w.
Proof. cbn. lia. Qed.

(** X11: when the file exists and one of the three client constructions
    fails, [main] prints that failure on the error stream and exits with
    code 1; nothing has been sent to any service. *)
Theorem client_failure_exits_before_any_call
    (B : Backend) (fuel : nat) (ova_file_path : string) (w : World) (e : Py.exn) :
  os_path_exists B ova_file_path = true ->
  first_client_error B = Some e ->
  main B fuel ova_file_path w
    = (Exited 1,
       after w [ Print Stdout "Starting OVA to AMI conversion script...";
                 client_error e ])
  /\ calls_of (trace (snd (main B fuel ova_file_path w))) = calls_of (trace w).
Proof.
  intros Hfile Hclient.
  assert (Hrun : main B fuel ova_file_path w = (Exited 1, after w [ banner; client_error e ])).
  { rewrite main_parts. unfold bind at 1.
    rewrite main_stages_run, Hfile, Hclient. reflexivity. }
  rewrite Hrun. split; [reflexivity|].
  cbn [snd after trace]. rewrite calls_of_app. apply app_nil_r.
Qed.

Lemma client_failure_exits_before_any_call_witness :
  fst (main (Faults.backend Faults.no_ec2 (Ok tt) Scenario.existing_role (Ok tt) (Ok tt)
               (Ok tt) (Ok tt) (Ok Faults.task_id_response)
               (fun _ => Scenario.answer Scenario.completed))
         1 "/images/vm.ova" initial)
  = Exited 1.
Proof.
  destruct (client_failure_exits_before_any_call
              (Faults.backend Faults.no_ec2 (Ok tt) Scenario.existing_role (Ok tt) (Ok tt)
                 (Ok tt) (Ok tt) (Ok Faults.task_id_response)
                 (fun _ => Scenario.answer Scenario.completed))
              1 "/images/vm.ova" initial
              (Py.ClientError "You must specify a region.")) as [H _].
  - reflexivity.
  - reflexivity.
  - rewrite H. reflexivity.
Defined.

(** X12: when the creation of the bucket fails for another reason than
    the bucket being owned already, [main] ends there with exit code 1:
    the bucket creation is the only request of the run, and no role
    lookup, upload, import or status query follows. *)
Theorem bucket_failure_stops_the_pipeline
    (B : Backend) (fuel : nat) (ova_file_path : string) (w : World) (e : Py.exn) :
  os_path_exists B ova_file_path = true ->
  first_client_error B = None ->
  create_bucket B (calls_made w) (generated_bucket_name B)
                (location_constraint_for (region_name B)) = Err e ->
  (forall msg, e <> Py.BucketAlreadyOwnedByYou msg) ->
  main B fuel ova_file_path w
    = (Exited 1,
       after w [ banner;
                 attempting (generated_bucket_name B);
                 Call (bucket_request B (generated_bucket_name B));
                 Print Stderr ("Error creating S3 bucket: " +:+ Py.str e) ])
  /\ calls_of (trace (snd (main B fuel ova_file_path w)))
     = calls_of (trace w) ++ [ bucket_request B (generated_bucket_name B) ].
Proof.
  intros Hfile Hclient Hbucket Hne.
  assert (Hrun : main B fuel ova_file_path w
    = (Exited 1,
       after w [ banner;
                 attempting (generated_bucket_name B);
                 Call (bucket_request B (generated_bucket_name B));
                 Print Stderr ("Error creating S3 bucket: " +:+ Py.str e) ])).
  { rewrite main_parts. unfold bind at 1.
    rewrite main_stages_run, Hfile, Hclient. unfold provisioning, bind at 1.
    rewrite create_s3_bucket_run, calls_made_after_banner, Hbucket.
    destruct e; try (rewrite after_after; reflexivity).
    exfalso. exact (Hne msg eq_refl). }
  rewrite Hrun. split; [reflexivity|].
  cbn [snd after trace]. rewrite calls_of_app. reflexivity.
Qed.

Lemma bucket_failure_stops_the_pipeline_witness :
  calls_of (trace (snd (main
     (Faults.backend Faults.all_clients (Err (Py.ClientError "Access Denied"))
        Scenario.existing_role (Ok tt) (Ok tt) (Ok tt) (Ok tt) (Ok Faults.task_id_response)
        (fun _ => Scenario.answer Scenario.completed))
     1 "/images/vm.ova" initial)))
  = [ CreateBucket "ova-ami-import-1700000000-123e4567" None ].
Proof.
  destruct (bucket_failure_stops_the_pipeline
              (Faults.backend Faults.all_clients (Err (Py.ClientError "Access Denied"))
                 Scenario.existing_role (Ok tt) (Ok tt) (Ok tt) (Ok tt)
                 (Ok Faults.task_id_response)
                 (fun _ => Scenario.answer Scenario.completed))
              1 "/images/vm.ova" initial (Py.ClientError "Access Denied")) as [_ H].
  - reflexivity.
  - reflexivity.
  - reflexivity.
  - discriminate.
  - rewrite H. vm_compute. reflexivity.
Defined.

(** Once the command line is parsed, a run that ends in [sys.exit] ends
    with code 1. *)
Lemma parsed_run_exit_code
    (B : Backend) (fuel : nat) (ova_file_path : string) (w : World) (code : Z) :
  fst (main B fuel ova_file_path w) = Exited code -> code = 1.
Proof.
  intros H. pose proof (main_contained B fuel ova_file_path w) as Hc.
  rewrite H in Hc. exact Hc.
Qed.

(** X15: the exit codes of [main], from the command line on.  A run that
    ends in [sys.exit] has code 0 when the parser showed the help, code 2
    when the parser refused the command line, and code 1 in every other
    case, whatever the file system and the services answered; the two
    exits of the parser happen before anything else is printed or sent. *)
Theorem exit_codes_of_a_run
    (B : Backend) (parse_args : list string -> parse_result) (fuel : nat)
    (argv : list string) (w : World) :
  (forall code,
     fst (main_from_command_line B parse_args fuel argv w) = Exited code ->
     match parse_args argv with
     | HelpShown _ => code = 0
     | UsageError _ => code = 2
     | Parsed _ => code = 1
     end)
  /\ (forall text,
        parse_args argv = HelpShown text ->
        main_from_command_line B parse_args fuel argv w
        = (Exited 0, after w [ Print Stdout text ]))
  /\ (forall text,
        parse_args argv = UsageError text ->
        main_from_command_line B parse_args fuel argv w
        = (Exited 2, after w [ Print Stderr text ])).
Proof.
  unfold main_from_command_line. split; [|split].
  - intros code H. destruct (parse_args argv) as [input|text|text].
    + exact (parsed_run_exit_code B fuel input w code H).
    + revert H. run_script. intros H. injection H as <-. reflexivity.
    + revert H. run_script. intros H. injection H as <-. reflexivity.
  - intros text ->. run_script. worlds. reflexivity.
  - intros text ->. run_script. worlds. reflexivity.
Qed.

Lemma exit_codes_of_a_run_witness :
  fst (main_from_command_line
         (Scenario.accepting (fun _ => Scenario.answer Scenario.completed))
         scenario_parser 1 [] initial)
  = Exited 2
  /\ fst (main_from_command_line
            (Scenario.accepting (fun _ => Scenario.answer Scenario.completed))
            scenario_parser 1 ["--help"] initial)
     = Exited 0
  /\ fst (main_from_command_line
            (Scenario.accepting (fun _ => Scenario.answer Scenario.completed))
            scenario_parser 1 ["--input"; "missing.ova"] initial)
     = Exited 1.
Proof.
  split; [|split].
  - destruct (exit_codes_of_a_run
                (Scenario.accepting (fun _ => Scenario.answer Scenario.completed))
                scenario_parser 1 [] initial) as (_ & _ & H).
    rewrite (H _ eq_refl). reflexivity.
  - destruct (exit_codes_of_a_run
                (Scenario.accepting (fun _ => Scenario.answer Scenario.completed))
                scenario_parser 1 ["--help"] initial) as (_ & H & _).
    rewrite (H _ eq_refl). reflexivity.
  - vm_compute. reflexivity.
Defined.

(** X16: an exception leaves [main] in two cases only: the role lookup
    raised it and it is not "no such entity", or it is the key error on
    ImageId.  Every other failure, of any request and at any stage, is
    caught. *)
Theorem main_escaping_exceptions
    (B : Backend) (fuel : nat) (ova_file_path : string) (w : World) (e : Py.exn) :
  fst (main B fuel ova_file_path w) = Raised e ->
  (exists n, get_role B n "vmimport" = Err e
             /\ forall msg, e <> Py.NoSuchEntityException msg)
  \/ e = Py.KeyError "ImageId".
Proof.
  intros H. pose proof (main_contained B fuel ova_file_path w) as Hc.
  rewrite H in Hc. exact Hc.
Qed.

Lemma main_escaping_exceptions_witness :
  (exists n,
     get_role (Scenario.accepting (fun _ => Scenario.answer Scenario.completed_without_image))
       n "vmimport" = Err (Py.KeyError "ImageId")
     /\ forall msg, Py.KeyError "ImageId" <> Py.NoSuchEntityException msg)
  \/ Py.KeyError "ImageId" = Py.KeyError "ImageId".
Proof.
  apply (main_escaping_exceptions
           (Scenario.accepting (fun _ => Scenario.answer Scenario.completed_without_image))
           1 "vm.ova" initial).
  vm_compute. reflexivity.
Defined.

(** Once the command line is parsed, an exit status of 0 is reached only
    through the monitor. *)
Lemma parsed_run_exit_zero
    (B : Backend) (fuel : nat) (ova_file_path : string) (w : World) :
  exit_status (fst (main B fuel ova_file_path w)) = Some 0 ->
  exists import_task_id w1 task w2 status,
    main_stages B ova_file_path w = (Returned import_task_id, w1)
    /\ monitor_import_task B fuel import_task_id w1 = (Returned task, w2)
    /\ task !! "Status" = Some status
    /\ is_terminal status
    /\ (status = "completed" -> exists ami_id, task !! "ImageId" = Some ami_id).
Proof.
  intros H.
  pose proof (main_contained B fuel ova_file_path w) as Hc.
  destruct (fst (main B fuel ova_file_path w)) as [[]|e|code|] eqn:Hmain;
    cbn in H, Hc; try discriminate H; [|subst code; discriminate H].
  clear H Hc. rewrite main_parts in Hmain. unfold bind at 1 in Hmain.
  destruct (main_stages B ova_file_path w) as [[import_task_id|e|code|] w1] eqn:Hs;
    try discriminate Hmain.
  unfold bind at 1 in Hmain.
  destruct (monitor_import_task B fuel import_task_id w1) as [[task|e|code|] w2] eqn:Hm;
    try discriminate Hmain.
  destruct (monitor_returns_terminal_status B import_task_id fuel w1 w2 task Hm)
    as (status & Hstatus & Hterminal).
  exists import_task_id, w1, task, w2, status. repeat split; try assumption.
  intros ->. destruct (task !! "ImageId") as [ami_id|] eqn:Hi; [eauto|].
  rewrite (report_without_image task w2 Hstatus Hi) in Hmain. discriminate Hmain.
Qed.

(** X14: a run of [main], from the command line on, has the exit status 0
    in two cases only.  Either the parser showed the help, or the command
    line was parsed to a path and the run went through the monitor: the
    stages before it have all returned, the monitor has returned a task
    record whose status is completed, deleted or cancelled, and a
    completed record carries an image identifier. *)
Theorem exit_zero_means_help_or_terminal_task
    (B : Backend) (parse_args : list string -> parse_result) (fuel : nat)
    (argv : list string) (w : World) :
  exit_status (fst (main_from_command_line B parse_args fuel argv w)) = Some 0 ->
  (exists text, parse_args argv = HelpShown text)
  \/ (exists ova_file_path import_task_id w1 task w2 status,
        parse_args argv = Parsed ova_file_path
        /\ main_stages B ova_file_path w = (Returned import_task_id, w1)
        /\ monitor_import_task B fuel import_task_id w1 = (Returned task, w2)
        /\ task !! "Status" = Some status
        /\ is_terminal status
        /\ (status = "completed" -> exists ami_id, task !! "ImageId" = Some ami_id)).
Proof.
  unfold main_from_command_line.
  destruct (parse_args argv) as [input|text|text]; intros H.
  - right.
    destruct (parsed_run_exit_zero B fuel input w H)
      as (import_task_id & w1 & task & w2 & status & Hrest).
    exists input, import_task_id, w1, task, w2, status. split; [reflexivity | exact Hrest].
  - left. exists text. reflexivity.
  - exfalso. revert H. run_script. cbn [exit_status fst]. discriminate.
Qed.

Lemma exit_zero_means_help_or_terminal_task_witness :
  (exists text, scenario_parser ["--input"; "vm.ova"] = HelpShown text)
  \/ (exists ova_file_path import_task_id w1 task w2 status,
        scenario_parser ["--input"; "vm.ova"] = Parsed ova_file_path
        /\ main_stages (Scenario.accepting (fun _ => Scenario.answer Scenario.cancelled))
             ova_file_path initial = (Returned import_task_id, w1)
        /\ monitor_import_task
             (Scenario.accepting (fun _ => Scenario.answer Scenario.cancelled))
             1 import_task_id w1 = (Returned task, w2)
        /\ task !! "Status" = Some status
        /\ is_terminal status
        /\ (status = "completed" -> exists ami_id, task !! "ImageId" = Some ami_id)).
Proof.
  apply (exit_zero_means_help_or_terminal_task
           (Scenario.accepting (fun _ => Scenario.answer Scenario.cancelled))
           scenario_parser 1 ["--input"; "vm.ova"] initial).
  vm_compute. reflexivity.
Defined.

Section Success.

Variable B : Backend.
Variable ova_file_path : string.

(** The stages after the clients, when every request is accepted and the
    role is there. *)
Lemma provisioning_accepted (w : World) (info : role_info) (response : Py.dict)
    (import_task_id : string) :
  create_bucket B (calls_made w) (generated_bucket_name B)
                (location_constraint_for (region_name B)) = Ok tt ->
  get_role B (calls_made w + 1) IAM_ROLE_NAME = Ok info ->
  upload_file B (calls_made w + 2) ova_file_path (generated_bucket_name B)
              (Py.basename ova_file_path) = Ok tt ->
  import_image_reply B (calls_made w + 3) (generated_description ova_file_path)
    [ {| Description := generated_description ova_file_path; Format := "ova";
         UserBucket := {| S3Bucket := generated_bucket_name B;
                          S3Key := Py.basename ova_file_path |} |} ]
  = Ok response ->
  response !! "ImportTaskId" = Some import_task_id ->
  provisioning B ova_file_path w
  = (Returned import_task_id, after w (provisioned B ova_file_path import_task_id)).
Proof.
  intros Hbucket Hrole Hupload Himport Hid.
  unfold provisioning. unfold bind at 1.
  rewrite create_s3_bucket_run, Hbucket.
  unfold bind at 1.
  rewrite (role_exists_run B _ _ info) by exact Hrole.
  rewrite after_after. unfold bind at 1.
  rewrite upload_run.
  match goal with
  | |- context [upload_file B ?n _ _ _] =>
      change n with (calls_made w + 2)%nat
  end.
  rewrite Hupload, after_after, import_run.
  match goal with
  | |- context [import_image_reply B ?n _ _] =>
      change n with (calls_made w + 3)%nat
  end.
  rewrite Himport, Hid, after_after. reflexivity.
Qed.

End Success.

(** X13: the whole run on a cooperative backend.  When the file exists,
    the clients are built, the bucket is created, the role is found, the
    upload and the import are accepted, and the status queries answer [n]
    times with a status that is not terminal and then with completed and
    an image identifier, [main] returns: the requests name one and the
    same generated bucket, the object key and the description come from
    the base name of the file, and the last line printed is the image
    identifier. *)
Theorem successful_run
    (B : Backend) (fuel : nat) (ova_file_path : string) (w : World)
    (info : role_info) (response : Py.dict) (import_task_id : string)
    (task : nat -> Py.dict) (n : nat) (ami_id : string) :
  os_path_exists B ova_file_path = true ->
  first_client_error B = None ->
  create_bucket B (calls_made w) (generated_bucket_name B)
                (location_constraint_for (region_name B)) = Ok tt ->
  get_role B (calls_made w + 1) IAM_ROLE_NAME = Ok info ->
  upload_file B (calls_made w + 2) ova_file_path (generated_bucket_name B)
              (Py.basename ova_file_path) = Ok tt ->
  import_image_reply B (calls_made w + 3) (generated_description ova_file_path)
    [ {| Description := generated_description ova_file_path; Format := "ova";
         UserBucket := {| S3Bucket := generated_bucket_name B;
                          S3Key := Py.basename ova_file_path |} |} ]
  = Ok response ->
  response !! "ImportTaskId" = Some import_task_id ->
  (forall k, (k < n)%nat ->
     exists status,
       observes B import_task_id (calls_made w + 4 + k) (task k) status
       /\ ~ is_terminal status) ->
  observes B import_task_id (calls_made w + 4 + n) (task n) "completed" ->
  task n !! "ImageId" = Some ami_id ->
  (n < fuel)%nat ->
  main B fuel ova_file_path w
    = (Returned tt,
       after w (banner :: provisioned B ova_file_path import_task_id
                ++ monitoring :: pending_passes import_task_id task n
                ++ poll import_task_id (task n)
                ++ success_report ami_id))
  /\ exit_status (fst (main B fuel ova_file_path w)) = Some 0.
Proof.
  intros Hfile Hclient Hbucket Hrole Hupload Himport Hid Hpending Hdone Hami Hfuel.
  assert (Hrun : main B fuel ova_file_path w
    = (Returned tt,
       after w (banner :: provisioned B ova_file_path import_task_id
                ++ monitoring :: pending_passes import_task_id task n
                ++ poll import_task_id (task n)
                ++ success_report ami_id))).
  { rewrite main_parts. unfold bind at 1.
    rewrite main_stages_run, Hfile, Hclient.
    rewrite (provisioning_accepted B ova_file_path _ info response import_task_id)
      by (rewrite ?calls_made_after_banner; assumption).
    rewrite after_after. unfold bind at 1. rewrite monitor_run, after_after.
    set (w1 := after w _).
    assert (Hcalls : calls_made w1 = (calls_made w + 4)%nat) by (cbn; lia).
    replace fuel with (n + S (fuel - S n))%nat by lia.
    rewrite (loop_skips_pending B import_task_id task n)
      by (intros k Hk; rewrite Hcalls; apply Hpending; exact Hk).
    cbn [monitor_loop]. unfold bind at 1.
    rewrite (iteration_terminal B import_task_id _ (task n) "completed");
      [| rewrite calls_made_after_passes, Hcalls; exact Hdone | left; reflexivity].
    unfold ret at 1.
    destruct Hdone as (rest & _ & Hstatus).
    rewrite (report_completed (task n) ami_id _ Hstatus Hami).
    unfold w1. rewrite !after_after. f_equal. }
  rewrite Hrun. split; reflexivity.
Qed.

Lemma successful_run_witness :
  exit_status
    (fst (main (Faults.accepting (Faults.sixth (Scenario.answer Scenario.completed)))
            3 "/images/vm.ova" initial))
  = Some 0.
Proof.
  apply (successful_run
           (Faults.accepting (Faults.sixth (Scenario.answer Scenario.completed)))
           3 "/images/vm.ova" initial
           {| Arn := "arn:aws:iam::123456789012:role/vmimport"; TrustPolicy := "{}" |}
           Faults.task_id_response "import-ami-0a1b2c3d"
           (Scenario.tasks_then Scenario.completed) 2 "ami-0123456789abcdef0");
    try reflexivity.
  - intros k Hk. exists "active".
    destruct k as [|[|k]]; [| |lia];
      (split; [exists []; split; reflexivity | unfold is_terminal; intuition discriminate]).
  - exists []. split; reflexivity.
  - lia.
Defined.

(** ** The order of the requests *)

(** Computes the requests of an explicit list of events. *)
Ltac requests :=
  unfold creating_role, attaching_policy, waiting_for_role, role_error, checking,
    attempting, uploading, initiating, banner, client_error, monitoring;
  unfold calls_of; cbn [flat_map app].

(** A list that begins like another one is a sublist of it. *)
Ltac begins := repeat first [ apply sublist_nil_l | apply sublist_skip ].

Section Order.

Variable B : Backend.

Lemma sends_bind {X Y} (m : M X) (k : X -> M Y) (w : World) (s1 s2 : list api_call) :
  sends_at m w s1 ->
  (forall x w', m w = (Returned x, w') -> sends_at (k x) w' s2) ->
  sends_at (bind m k) w (s1 ++ s2).
Proof.
  intros (evs1 & Hw & Hsub) Hk. unfold sends_at, bind.
  destruct (m w) as [[x|e|code|] w'] eqn:Hm; cbn [snd] in Hw; subst w';
    try (exists evs1; split; [reflexivity | apply sublist_inserts_r; exact Hsub]).
  destruct (Hk x _ eq_refl) as (evs2 & Hw2 & Hsub2).
  exists (evs1 ++ evs2). split.
  - rewrite Hw2, after_after. reflexivity.
  - rewrite calls_of_app. apply sublist_app; assumption.
Qed.

Lemma bucket_sends (bucket_name : string) (w : World) :
  sends_at (create_s3_bucket B bucket_name) w [ bucket_request B bucket_name ].
Proof.
  unfold sends_at. rewrite create_s3_bucket_run.
  destruct (create_bucket B _ _ _) as [[]|[]]; eexists; (split; [reflexivity|]);
    requests; begins.
Qed.

Lemma role_sends (s3_bucket : string) (w : World) :
  sends_at (create_iam_role_and_policy B s3_bucket) w (role_requests s3_bucket).
Proof.
  unfold sends_at.
  destruct (get_role B (calls_made w) IAM_ROLE_NAME) as [info|e] eqn:Hget.
  - rewrite (role_exists_run B s3_bucket w info Hget).
    eexists. split; [reflexivity|]. requests. unfold role_requests. begins.
  - assert (Hother : (forall msg, e <> Py.NoSuchEntityException msg) ->
      exists evs,
        snd (create_iam_role_and_policy B s3_bucket w) = after w evs
        /\ calls_of evs `sublist_of` role_requests s3_bucket).
    { intros Hne. rewrite (role_lookup_failure_run B s3_bucket w e Hget Hne).
      eexists. split; [reflexivity|]. requests. unfold role_requests. begins. }
    destruct e; try (apply Hother; discriminate).
    rewrite (role_creation_run B s3_bucket w msg Hget).
    destruct (create_role B _ _ _) as [[]|e1];
      [destruct (put_role_policy B _ _ _ _) as [[]|e2];
       [destruct (wait_role_exists B _ _) as [[]|e3]|]|];
      eexists; (split; [reflexivity|]); requests; unfold role_requests; begins.
Qed.

Lemma upload_sends (bucket_name file_path : string) (w : World) :
  sends_at (upload_ova_to_s3 B bucket_name file_path) w
           [ upload_request bucket_name file_path ].
Proof.
  unfold sends_at. rewrite upload_run.
  destruct (upload_file B _ _ _ _) as [[]|e]; eexists; (split; [reflexivity|]);
    requests; begins.
Qed.

Lemma import_sends (s3_bucket ova_key description : string) (w : World) :
  sends_at (import_image B s3_bucket ova_key description) w
           [ import_request s3_bucket ova_key description ].
Proof.
  unfold sends_at. rewrite import_run.
  destruct (import_image_reply B _ _ _) as [response|e];
    [destruct (response !! "ImportTaskId")|];
    eexists; (split; [reflexivity|]); requests; begins.
Qed.

Lemma upload_returns_base_name (bucket_name file_path key : string) (w w' : World) :
  upload_ova_to_s3 B bucket_name file_path w = (Returned key, w') ->
  key = Py.basename file_path.
Proof.
  rewrite upload_run. destruct (upload_file B _ _ _ _) as [[]|e]; intros H;
    [injection H as <- _; reflexivity | discriminate H].
Qed.

Lemma provisioning_sends (ova_file_path : string) (w : World) :
  sends_at (provisioning B ova_file_path) w (stage_requests B ova_file_path).
Proof.
  unfold provisioning, stage_requests.
  apply sends_bind; [apply bucket_sends | intros _ w1 _].
  apply sends_bind; [apply role_sends | intros _ w2 _].
  apply sends_bind; [apply upload_sends | intros key w3 Hkey].
  rewrite (upload_returns_base_name _ _ _ _ _ Hkey). apply import_sends.
Qed.

Lemma stages_send (ova_file_path : string) (w : World) :
  sends_at (main_stages B ova_file_path) w (stage_requests B ova_file_path).
Proof.
  unfold sends_at. rewrite main_stages_run.
  destruct (os_path_exists B ova_file_path).
  - destruct (first_client_error B) as [e|].
    + eexists. split; [reflexivity|]. requests. apply sublist_nil_l.
    + destruct (provisioning_sends ova_file_path (after w [ banner ]))
        as (evs & Hw & Hsub).
      exists (banner :: evs). rewrite Hw, after_after. split; [reflexivity|].
      exact Hsub.
  - eexists. split; [reflexivity|]. requests. apply sublist_nil_l.
Qed.

Lemma report_sends_nothing (task : Py.dict) (w : World) :
  exists evs, snd (main_report task w) = after w evs /\ calls_of evs = [].
Proof.
  unfold main_report. run_script.
  destruct (task !! "Status") as [status|];
    [|exists []; rewrite after_nil; split; reflexivity].
  destruct (String.eqb status "completed").
  - destruct (task !! "ImageId");
      [|exists []; rewrite after_nil; split; reflexivity].
    worlds. eexists. split; reflexivity.
  - worlds. eexists. split; reflexivity.
Qed.

End Order.

(** X17: whatever the file system and the services answer, the requests
    of a run of [main] go forward through the stages: they are some of
    bucket creation, role lookup, role creation, policy attachment, wait,
    upload and import, with the names of this run, each at most once and
    in that order, followed by status queries for one task and by nothing
    else. *)
Theorem main_requests_in_order
    (B : Backend) (fuel : nat) (ova_file_path : string) (w : World) :
  exists cs task_id queries,
    calls_of (trace (snd (main B fuel ova_file_path w)))
    = calls_of (trace w) ++ cs ++ repeat (DescribeImportImageTasks [task_id]) queries
    /\ cs `sublist_of` stage_requests B ova_file_path.
Proof.
  rewrite main_parts. unfold bind at 1.
  destruct (stages_send B ova_file_path w) as (evs1 & Hw1 & Hsub).
  destruct (main_stages B ova_file_path w) as [[import_task_id|e|code|] w1];
    cbn [snd] in Hw1; subst w1;
    try (exists (calls_of evs1), "", 0%nat; split; [|exact Hsub];
         cbn [snd after trace repeat]; rewrite calls_of_app, app_nil_r; reflexivity).
  unfold bind at 1. rewrite monitor_run, after_after.
  destruct (loop_invariant B import_task_id fuel (after w (evs1 ++ [monitoring])))
    as (o & evs2 & sleeps & Hrun & _ & Hcalls & _ & _).
  rewrite Hrun, after_after.
  assert (Hnew : calls_of ((evs1 ++ [monitoring]) ++ evs2)
                 = calls_of evs1
                   ++ repeat (DescribeImportImageTasks [import_task_id])
                        (match o with OutOfFuel => sleeps | _ => S sleeps end)).
  { rewrite !calls_of_app, Hcalls. cbn [calls_of flat_map monitoring app].
    rewrite app_nil_r. reflexivity. }
  destruct o as [task|e|code|];
    try (eexists (calls_of evs1), import_task_id, _; split; [|exact Hsub];
         cbn [snd after trace]; rewrite calls_of_app, Hnew; reflexivity).
  destruct (report_sends_nothing task (after w ((evs1 ++ [monitoring]) ++ evs2)))
    as (evs3 & Hw3 & Hnone).
  eexists (calls_of evs1), import_task_id, _. split; [|exact Hsub].
  rewrite Hw3, after_after. cbn [after trace].
  rewrite calls_of_app, (calls_of_app _ evs3), Hnone, app_nil_r, Hnew. reflexivity.
Qed.
